(** * azure_startup.py: the tiered start-up supervisor and its fallback server

    A shallow embedding of [src/azure_startup.py], lines 105-273: the
    launch of the primary application, the fallback HTTP handler
    [MinimalHealthHandler] with its shared [last_cleanup_result], and the
    two keep-alive loops.

    Conventions.
    - Python values that travel through JSON (a parsed request body, a
      result [json.dumps] can write) are values of [pyval].
    - Exceptions are values of [exn]; only subclasses of Python's
      [Exception] are modelled (every handler of the file is an
      [except Exception], an [except ImportError] or a bare [except]).
    - The handler is written in a small state/exception/output monad [M]:
      the state is the module global [last_cleanup_result], the output is
      the list of effects the handler performs, in program order.
    - [do_GET], [do_POST] and [do_HEAD] are the handler on a stdout and a
      client socket that take everything written to them; [do_GET_io],
      [do_POST_io] and [do_HEAD_io] are the same lines of code when a
      [print], a [json.dumps] or a write to the socket can raise.
    - Library functions whose text is not part of the repository
      ([int] on a string, [json.loads] after [bytes.decode]) are Section
      variables. [json.dumps(v, indent=i).encode()] is kept symbolic: the
      effect [wfile_write i v] records the value and the indent. *)

From Stdlib Require Import Ascii String ZArith List Bool Lia Permutation.
Import ListNotations.

Open Scope string_scope.
Open Scope Z_scope.

(** ** Python values *)

#[warnings="-register-all"]
Inductive pyval : Type :=
| PNone
| PBool (b : bool)
| PInt (z : Z)
| PFloat (repr : string)
| PStr (s : string)
| PList (items : list pyval)
| PDict (items : list (string * pyval)).

(** The entries of a [dict] are kept in insertion order, which is the
    order [json.dumps] writes them in; a [dict] has each key once, so the
    first entry with the key is the entry. *)
Fixpoint dict_get (items : list (string * pyval)) (key : string) : option pyval :=
  match items with
  | [] => None
  | (k, v) :: rest => if String.eqb k key then Some v else dict_get rest key
  end.

Definition type_name (v : pyval) : string :=
  match v with
  | PNone => "NoneType"
  | PBool _ => "bool"
  | PInt _ => "int"
  | PFloat _ => "float"
  | PStr _ => "str"
  | PList _ => "list"
  | PDict _ => "dict"
  end.

(** [v == s] for a [str] literal [s]. *)
Definition py_eq_str (v : pyval) (s : string) : bool :=
  match v with
  | PStr t => String.eqb t s
  | _ => false
  end.

(** ** Exceptions *)

Inductive exn_class : Type :=
| ImportError
| ModuleNotFoundError
| AttributeError
| ValueError
| OSError
| NameError
| RuntimeError.

Record exn : Type := mkExn { exn_type : exn_class; exn_str : string }.

(** [isinstance(e, ImportError)]: what [except ImportError] tests. *)
Definition isinstance_ImportError (e : exn) : bool :=
  match exn_type e with
  | ImportError | ModuleNotFoundError => true
  | _ => false
  end.

(** [v.get(key, default)]; only a [dict] has the method. *)
Definition py_get (v : pyval) (key : string) (default : pyval) : exn + pyval :=
  match v with
  | PDict items =>
      inr (match dict_get items key with Some x => x | None => default end)
  | _ =>
      inl (mkExn AttributeError
             ("'" ++ type_name v ++ "' object has no attribute 'get'"))
  end.

(** ** Effects *)

(** The [print] calls of lines 105-273, with the values their f-strings
    interpolate. *)
Inductive log_line : Type :=
| LogImportFailed (e : exn)
| LogStartingFallback
| LogServerReady (port : Z)
| LogServerFailed (e : exn)
| LogEnteringWait
| LogStillAlive (now : string)
| LogStartupFailed (e : exn)
| LogKeepingAlive
| LogReceived (retention_hours : pyval)
| LogCompleted (status : pyval)
| LogCleanupFailed (e : exn)
| LogPostError (e : exn).

Inductive effect : Type :=
| send_response (code : Z)
| send_header (keyword value : string)
| end_headers
| wfile_write (indent : option nat) (v : pyval)
| send_error (code : Z)
| print (l : log_line)
| print_exc
| run_until_complete (retention_hours : pyval)
| sleep (seconds : Z).

(** What goes to the client: everything but logging, the cleanup call and
    sleeping. *)
Definition on_wire (f : effect) : bool :=
  match f with
  | send_response _ | send_header _ _ | end_headers
  | wfile_write _ _ | send_error _ => true
  | _ => false
  end.

Definition wire (out : list effect) : list effect := filter on_wire out.

Definition is_cleanup_call (f : effect) : bool :=
  match f with
  | run_until_complete _ => true
  | _ => false
  end.

Definition cleanup_calls (out : list effect) : list effect :=
  filter is_cleanup_call out.

(** ** The handler monad *)

Definition M (A : Type) : Type :=
  pyval -> (exn + A) * pyval * list effect.

Definition ret {A} (a : A) : M A := fun s => (inr a, s, []).

Definition bind {A B} (m : M A) (k : A -> M B) : M B :=
  fun s =>
    match m s with
    | (inl e, s1, out1) => (inl e, s1, out1)
    | (inr a, s1, out1) =>
        match k a s1 with
        | (r, s2, out2) => (r, s2, (out1 ++ out2)%list)
        end
    end.

Definition lift {A} (r : exn + A) : M A := fun s => (r, s, []).

Definition emit (f : effect) : M unit := fun s => (inr tt, s, [f]).

Definition get_global : M pyval := fun s => (inr s, s, []).

Definition set_global (v : pyval) : M unit := fun _ => (inr tt, v, []).

(** [try: m  except Exception as e: h e].  What [m] did to the state and
    to the output before raising stays done. *)
Definition try_except {A} (m : M A) (h : exn -> M A) : M A :=
  fun s =>
    match m s with
    | (inl e, s1, out1) =>
        match h e s1 with
        | (r, s2, out2) => (r, s2, (out1 ++ out2)%list)
        end
    | ok => ok
    end.

Notation "x <- c1 ;; c2" := (bind c1 (fun x => c2))
  (at level 61, c1 at next level, right associativity).
Notation "c1 ;; c2" := (bind c1 (fun _ => c2))
  (at level 61, right associativity).

(** ** Requests and their environment *)

Record request : Type := mkRequest {
  command : string;                 (* self.command *)
  path : string;                    (* self.path *)
  content_length : option string;   (* self.headers.get('Content-Length') *)
  rfile : exn + string              (* the bytes self.rfile.read finds *)
}.

(** What the outside world answers during one request. *)
Record world : Type := mkWorld {
  now_isoformat : string;           (* datetime.now().isoformat() *)
  utcnow_isoformat : string;        (* datetime.utcnow().isoformat() *)
  import_cleanup_api : option exn;  (* from cleanup_api import ... *)
  run_cleanup_operation : pyval -> exn + pyval
}.

(** Lines 123-127. *)
Definition initial_cleanup_result : pyval :=
  PDict [("timestamp", PNone);
         ("status", PStr "never_run");
         ("message", PStr "Cleanup unavailable in fallback mode")].

(** The [dict] literals of the handler, in the order of their keys. *)

(** Lines 140-147. *)
Definition health_response (e : exn) (now : string) : pyval :=
  PDict [("status", PStr "degraded");
         ("message", PStr "Crawler failed due to dependency conflicts - running fallback server");
         ("timestamp", PStr now);
         ("error", PStr (exn_str e));
         ("fix_attempted", PBool true);
         ("cleanup_api", PStr "available")].

(** Line 153. *)
Definition fallback_response : pyval :=
  PDict [("status", PStr "degraded"); ("message", PStr "Fallback mode")].

(** Lines 211-215. *)
Definition error_response (cleanup_error : exn) (utcnow : string) : pyval :=
  PDict [("status", PStr "error");
         ("message", PStr ("Cleanup failed in fallback mode: "
                           ++ exn_str cleanup_error));
         ("timestamp", PStr utcnow)].

(** Line 229. *)
Definition post_error (e : exn) (utcnow : string) : pyval :=
  PDict [("error", PStr (exn_str e)); ("timestamp", PStr utcnow)].

(** Line 236. *)
Definition not_found (p : string) : pyval :=
  PDict [("error", PStr "Not Found"); ("path", PStr p)].

(** "The server responds [code] with the JSON body [v]": the four calls
    every JSON answer of the handler consists of. *)
Definition json_reply (code : Z) (indent : option nat) (v : pyval) : list effect :=
  [send_response code;
   send_header "Content-type" "application/json";
   end_headers;
   wfile_write indent v].

Definition json_headers : M unit :=
  emit (send_header "Content-type" "application/json") ;;
  emit end_headers.

Section Handler.

(** [int(s)] for a [str] and [json.loads(b.decode('utf-8'))], [None]
    when either step raises. *)
Variable py_int : string -> exn + Z.
Variable json_loads : string -> option pyval.

(** The captured launch error, the [e] of [except ImportError as e]. *)
Variable e : exn.

(** Lines 130-154. *)
Definition do_GET (req : request) (w : world) : M unit :=
  if String.eqb (path req) "/api/cleanup/status" then
    emit (send_response 200) ;;
    json_headers ;;
    last_cleanup_result <- get_global ;;
    emit (wfile_write (Some 2%nat) last_cleanup_result)
  else if existsb (String.eqb (path req))
                  ["/api/cleanup/health"; "/health"; "/"] then
    emit (send_response 200) ;;
    json_headers ;;
    let response := health_response e (now_isoformat w) in
    emit (wfile_write (Some 2%nat) response)
  else
    emit (send_response 200) ;;
    json_headers ;;
    let response := fallback_response in
    emit (wfile_write None response).

(** Lines 163-164. *)
Definition read_body (req : request) : M string :=
  content_length <-
    lift (match content_length req with
          | Some s => py_int s
          | None => inr 0
          end) ;;
  if 0 <? content_length then
    bytes <- lift (rfile req) ;;
    ret (substring 0 (Z.to_nat content_length) bytes)
  else ret "{}".

(** What lines 163-164 leave in [body], or the exception they raise;
    [read_body] neither reads nor writes the global. *)
Definition received_body (req : request) : exn + string :=
  fst (fst (read_body req PNone)).

(** Lines 167-171: the inner [try] with its bare [except]. *)
Definition parse_retention_hours (body : string) : pyval :=
  match json_loads body with
  | Some data =>
      match py_get data "retention_hours" (PInt 24) with
      | inr v => v
      | inl _ => PInt 24
      end
  | None => PInt 24
  end.

(** Lines 176-222, every [print] and write going through;
    [cleanup_block_io] below is the block when one can raise. *)
Definition cleanup_block (retention_hours : pyval) (w : world) : M unit :=
  try_except
    (lift (match import_cleanup_api w with
           | Some err => inl err
           | None => inr tt
           end) ;;
     emit (run_until_complete retention_hours) ;;
     result <- lift (run_cleanup_operation w retention_hours) ;;
     set_global result ;;
     status <- lift (py_get result "status" PNone) ;;
     (if py_eq_str status "success"
      then emit (send_response 200)
      else emit (send_response 500)) ;;
     json_headers ;;
     emit (wfile_write (Some 2%nat) result) ;;
     status' <- lift (py_get result "status" PNone) ;;
     emit (print (LogCompleted status')))
    (fun cleanup_error =>
       emit (print (LogCleanupFailed cleanup_error)) ;;
       emit print_exc ;;
       let response := error_response cleanup_error (utcnow_isoformat w) in
       set_global response ;;
       emit (send_response 500) ;;
       json_headers ;;
       emit (wfile_write (Some 2%nat) response)).

(** Lines 156-237, every [print] and write going through; [do_POST_io]
    below is the method when one can raise. *)
Definition do_POST (req : request) (w : world) : M unit :=
  if String.eqb (path req) "/api/cleanup" then
    try_except
      (body <- read_body req ;;
       let retention_hours := parse_retention_hours body in
       emit (print (LogReceived retention_hours)) ;;
       cleanup_block retention_hours w)
      (fun e' =>
         emit (print (LogPostError e')) ;;
         emit (send_response 500) ;;
         json_headers ;;
         let error := post_error e' (utcnow_isoformat w) in
         emit (wfile_write None error))
  else
    emit (send_response 404) ;;
    json_headers ;;
    let error := not_found (path req) in
    emit (wfile_write None error).

(** Lines 239-241. *)
Definition do_HEAD (req : request) (w : world) : M unit :=
  emit (send_response 200) ;;
  emit end_headers.

(** The dispatch of [BaseHTTPRequestHandler]: the method
    ['do_' + self.command] when the class has it, else [send_error(501)]. *)
Definition handle (req : request) (w : world) : M unit :=
  if String.eqb (command req) "GET" then do_GET req w
  else if String.eqb (command req) "POST" then do_POST req w
  else if String.eqb (command req) "HEAD" then do_HEAD req w
  else emit (send_error 501).

End Handler.

(** [data] has no [retention_hours] to offer: it is no [dict], or a
    [dict] without the key. *)
Definition lacks_retention_hours (data : pyval) : bool :=
  match data with
  | PDict items =>
      match dict_get items "retention_hours" with
      | Some _ => false
      | None => true
      end
  | _ => true
  end.

(** The bodies [POST /api/cleanup] treats as carrying no retention: no
    [Content-Length], a length that is not positive, bytes that do not
    parse, or a parsed value without the field. *)
Inductive malformed_or_absent
  (py_int : string -> exn + Z) (json_loads : string -> option pyval)
  (req : request) : Prop :=
| body_absent :
    content_length req = None ->
    malformed_or_absent py_int json_loads req
| body_zero_length (s : string) (n : Z) :
    content_length req = Some s -> py_int s = inr n -> n <= 0 ->
    malformed_or_absent py_int json_loads req
| body_empty :
    received_body py_int req = inr "" ->
    malformed_or_absent py_int json_loads req
| body_unparsable (body : string) :
    received_body py_int req = inr body -> json_loads body = None ->
    malformed_or_absent py_int json_loads req
| body_lacks_field (body : string) (data : pyval) :
    received_body py_int req = inr body -> json_loads body = Some data ->
    lacks_retention_hours data = true ->
    malformed_or_absent py_int json_loads req.

(** The outer handler of lines 224-230 ran. *)
Definition post_failed (out : list effect) : bool :=
  existsb (fun f => match f with print (LogPostError _) => true | _ => false end)
          out.

(** The routes of the table in section 4.2 of the specification. *)
Definition listed_route (method p : string) : bool :=
  (String.eqb method "GET"
   && existsb (String.eqb p)
        ["/"; "/health"; "/api/cleanup/health"; "/api/cleanup/status"])
  || (String.eqb method "POST" && String.eqb p "/api/cleanup")
  || (String.eqb method "HEAD" && String.eqb p "/").

(** ** The supervisor: lines 105-273 as a step function

    A tier is a program point of the module-level [try] statement; an
    input is what the outside world answers there. *)

Inductive tier : Type :=
| Launching                      (* line 107, before the import of main *)
| PrimaryApp                     (* main() has the process; no handler below runs *)
| Degraded (e : exn) (last_cleanup_result : pyval)
                                 (* except ImportError, lines 113-246 done *)
| Serving (e : exn) (port : Z) (last_cleanup_result : pyval)
                                 (* inside serve_forever, line 254 *)
| KeepAlive                      (* the loop of lines 259-261 *)
| DebugKeepAlive                 (* except Exception, lines 264-270 done *)
| Exited (uncaught : exn).       (* an exception left the module: process over *)

Inductive input : Type :=
| launch (outcome : exn + unit)                    (* lines 109-110 *)
| start_server (PORT : option string) (server_bind : Z -> option exn)
                                                   (* lines 247-249 *)
| http_request (req : request) (w : world)         (* one request served *)
| serve_forever_raises (server_error : exn)        (* line 254 raises *)
| wake_up (now : string).                          (* a time.sleep returned *)

Section Supervisor.

Variable py_int : string -> exn + Z.
Variable json_loads : string -> option pyval.

(** Line 247: [int(os.environ.get('PORT', 8000))]. *)
Definition port_of_env (PORT : option string) : exn + Z :=
  match PORT with
  | Some s => py_int s
  | None => inr 8000
  end.

Definition step (t : tier) (i : input) : option (tier * list effect) :=
  match t, i with
  | Launching, launch (inr tt) => Some (PrimaryApp, [])
  | Launching, launch (inl e) =>
      if isinstance_ImportError e then
        Some (Degraded e initial_cleanup_result,
              [print (LogImportFailed e)])
      else
        Some (DebugKeepAlive,
              [print (LogStartupFailed e); print_exc; print LogKeepingAlive])
  | Degraded e st, start_server PORT server_bind =>
      match port_of_env PORT with
      | inl err => Some (Exited err, [print LogStartingFallback])
      | inr port =>
          match server_bind port with
          | None =>
              Some (Serving e port st,
                    [print LogStartingFallback; print (LogServerReady port)])
          | Some server_error =>
              Some (KeepAlive,
                    [print LogStartingFallback;
                     print (LogServerFailed server_error);
                     print LogEnteringWait])
          end
      end
  | Serving e port st, http_request req w =>
      match handle py_int json_loads e req w st with
      | (_, st', out) => Some (Serving e port st', out)
      end
  | Serving e port st, serve_forever_raises server_error =>
      Some (KeepAlive,
            [print (LogServerFailed server_error); print LogEnteringWait])
  | KeepAlive, wake_up now =>
      Some (KeepAlive, [sleep 60; print (LogStillAlive now)])
  | DebugKeepAlive, wake_up now =>
      (* line 273: datetime is imported on line 120 only *)
      Some (Exited (mkExn NameError "name 'datetime' is not defined"),
            [sleep 300])
  | _, _ => None
  end.

Fixpoint run (t : tier) (inputs : list input) : option (tier * list effect) :=
  match inputs with
  | [] => Some (t, [])
  | i :: rest =>
      match step t i with
      | Some (t1, out1) =>
          match run t1 rest with
          | Some (t2, out2) => Some (t2, (out1 ++ out2)%list)
          | None => None
          end
      | None => None
      end
  end.

End Supervisor.

(** Position of a tier on the ladder Launching, Degraded, KeepAlive. *)
Definition rank (t : tier) : nat :=
  match t with
  | Launching => 0
  | PrimaryApp => 1
  | Degraded _ _ | Serving _ _ _ => 1
  | KeepAlive | DebugKeepAlive => 2
  | Exited _ => 3
  end.

(** The tier has (or is about to have) the fallback HTTP server. *)
Definition in_degraded_tier (t : tier) : bool :=
  match t with
  | Degraded _ _ | Serving _ _ _ => true
  | _ => false
  end.

(** Until a POST arrives, the global is the one of lines 123-127. *)
Definition untouched (t : tier) : Prop :=
  match t with
  | Degraded _ st | Serving _ _ st => st = initial_cleanup_result
  | _ => True
  end.

Definition is_post (i : input) : bool :=
  match i with
  | http_request req _ => String.eqb (command req) "POST"
  | _ => false
  end.

Definition no_post (inputs : list input) : bool :=
  forallb (fun i => negb (is_post i)) inputs.


(** [n] rounds of the loop of lines 259-261, one per clock reading. *)
Definition heartbeats (nows : list string) : list effect :=
  flat_map (fun now => [sleep 60; print (LogStillAlive now)]) nows.

(** ** Stand-ins for the library, to run the model on concrete inputs *)

Fixpoint digits_value (s : string) (acc : Z) : option Z :=
  match s with
  | EmptyString => Some acc
  | String c rest =>
      let n := Z.of_nat (Ascii.nat_of_ascii c) in
      if (48 <=? n) && (n <=? 57)
      then digits_value rest (10 * acc + (n - 48))
      else None
  end.

(** [int] on strings of ASCII decimal digits with an optional sign; the
    real [int] also accepts surrounding blanks and underscores, which this
    stand-in rejects. *)
Definition sample_int (s : string) : exn + Z :=
  let bad :=
    inl (mkExn ValueError
           ("invalid literal for int() with base 10: '" ++ s ++ "'")) in
  match s with
  | EmptyString => bad
  | String c rest =>
      if Ascii.eqb c "-"%char then
        match rest, digits_value rest 0 with
        | String _ _, Some n => inr (- n)
        | _, _ => bad
        end
      else if Ascii.eqb c "+"%char then
        match rest, digits_value rest 0 with
        | String _ _, Some n => inr n
        | _, _ => bad
        end
      else
        match digits_value s 0 with
        | Some n => inr n
        | None => bad
        end
  end.

Definition dq : string := String (Ascii.ascii_of_nat 34) EmptyString.

Definition body_48 : string := "{" ++ dq ++ "retention_hours" ++ dq ++ ": 48}".
Definition body_neg5 : string := "{" ++ dq ++ "retention_hours" ++ dq ++ ": -5}".
Definition body_abc : string :=
  "{" ++ dq ++ "retention_hours" ++ dq ++ ": " ++ dq ++ "abc" ++ dq ++ "}".
Definition body_null : string := "{" ++ dq ++ "retention_hours" ++ dq ++ ": null}".
Definition body_other_key : string := "{" ++ dq ++ "hours" ++ dq ++ ": 3}".

(** [json.loads] on a handful of request bodies; every other body is
    taken as unparsable. *)
Definition sample_json_loads (body : string) : option pyval :=
  if String.eqb body "{}" then Some (PDict [])
  else if String.eqb body body_48 then Some (PDict [("retention_hours", PInt 48)])
  else if String.eqb body body_neg5 then Some (PDict [("retention_hours", PInt (-5))])
  else if String.eqb body body_abc then Some (PDict [("retention_hours", PStr "abc")])
  else if String.eqb body body_null then Some (PDict [("retention_hours", PNone)])
  else if String.eqb body body_other_key then Some (PDict [("hours", PInt 3)])
  else if String.eqb body "[1, 2]" then Some (PList [PInt 1; PInt 2])
  else None.

Definition import_error : exn :=
  mkExn ModuleNotFoundError "No module named 'azure_startup_main'".

Definition sample_result : pyval :=
  PDict [("status", PStr "success");
         ("timestamp", PStr "T");
         ("retention_hours_applied", PInt 48)].

(** A world whose cleanup succeeds on 48 hours, reports an error on 24 and
    raises on everything else. *)
Definition sample_world : world :=
  mkWorld "2025-01-01T10:00:00" "2025-01-01T09:00:00" None
    (fun retention_hours =>
       match retention_hours with
       | PInt 48 => inr sample_result
       | PInt 24 => inr (PDict [("status", PStr "error"); ("message", PStr "no store")])
       | _ => inl (mkExn RuntimeError "bad retention")
       end).

Definition post_cleanup (length : option string) (bytes : string) : request :=
  mkRequest "POST" "/api/cleanup" length (inr bytes).

Definition get (p : string) : request := mkRequest "GET" p None (inr "").


(** ** The preparation of [sys.path]: lines 11-42 *)

(** [s.startswith(pre)]. *)
Fixpoint startswith (pre s : string) : bool :=
  match pre, s with
  | EmptyString, _ => true
  | String a pre', String b s' => Ascii.eqb a b && startswith pre' s'
  | String _ _, EmptyString => false
  end.

(** [sub in s], for two [str]: [sub] starts at some position of [s]. *)
Fixpoint str_in (sub s : string) : bool :=
  startswith sub s
  || match s with
     | EmptyString => false
     | String _ s' => str_in sub s'
     end.

(** Line 17. *)
Definition is_system_path (path : string) : bool :=
  str_in "/agents/python" path || str_in "/opt/python" path.

(** Lines 13-21: the loop over [original_path], with the two lists it
    appends to; the result is [(paths_removed, new_path)]. *)
Fixpoint split_paths (original_path paths_removed new_path : list string)
  : list string * list string :=
  match original_path with
  | [] => (paths_removed, new_path)
  | path :: rest =>
      if is_system_path path
      then split_paths rest (paths_removed ++ [path])%list new_path
      else split_paths rest paths_removed (new_path ++ [path])%list
  end.

(** Line 31. *)
Definition is_venv_path (path : string) : bool :=
  str_in "antenv" path && str_in "site-packages" path.

(** Lines 29-33: the first entry the test of line 31 accepts. *)
Fixpoint find_venv (sys_path : list string) : option string :=
  match sys_path with
  | [] => None
  | path :: rest => if is_venv_path path then Some path else find_venv rest
  end.

(** [l.remove(x)]: the first entry equal to [x] goes; a [ValueError] when
    there is none. *)
Fixpoint list_remove (x : string) (l : list string) : exn + list string :=
  match l with
  | [] => inl (mkExn ValueError "list.remove(x): x not in list")
  | y :: rest =>
      if String.eqb y x then inr rest
      else match list_remove x rest with
           | inr rest' => inr (y :: rest')
           | inl err => inl err
           end
  end.

(** Lines 35-42: [if venv_path:] holds for a [str] that is not empty. *)
Definition prioritize_venv (sys_path : list string) : exn + list string :=
  match find_venv sys_path with
  | Some venv_path =>
      if negb (String.eqb venv_path "") then
        match (if existsb (String.eqb venv_path) sys_path
               then list_remove venv_path sys_path
               else inr sys_path) with
        | inr removed => inr (venv_path :: removed)
        | inl err => inl err
        end
      else inr sys_path
  | None => inr sys_path
  end.

(** Lines 12-42: the [sys.path] the launch runs with. *)
Definition prepare_sys_path (original_path : list string) : exn + list string :=
  prioritize_venv (snd (split_paths original_path [] [])).

(** ** The Sentinel shim: lines 49-55 *)

Record sentinel : Type := mkSentinel { sentinel_name : string }.

(** [_CallableSentinel(name)]: [self.name = name or 'Sentinel'], for a
    [name] that is [None] or a [str]. *)
Definition new_sentinel (name : option string) : sentinel :=
  match name with
  | Some n => if String.eqb n "" then mkSentinel "Sentinel" else mkSentinel n
  | None => mkSentinel "Sentinel"
  end.

(** [__repr__]. *)
Definition sentinel_repr (s : sentinel) : string :=
  "<" ++ sentinel_name s ++ ">".

(** ** Observations on outputs and tiers *)

(** The status lines of an output: the codes [send_response] and
    [send_error] were called with, in order. *)
Definition status_lines (out : list effect) : list Z :=
  flat_map (fun f => match f with
                     | send_response code | send_error code => [code]
                     | _ => []
                     end) out.

Definition is_dict (v : pyval) : bool :=
  match v with
  | PDict _ => true
  | _ => false
  end.

(** The [last_cleanup_result] of a tier that has the handler class. *)
Definition global_of (t : tier) : option pyval :=
  match t with
  | Degraded _ st | Serving _ _ st => Some st
  | _ => None
  end.

Definition is_launch (i : input) : bool :=
  match i with
  | launch _ => true
  | _ => false
  end.

Definition is_start_server (i : input) : bool :=
  match i with
  | start_server _ _ => true
  | _ => false
  end.

(** How often the import of line 109 and the constructor of line 249
    can still be reached from a tier. *)
Definition launches_left (t : tier) : nat :=
  match t with
  | Launching => 1
  | _ => 0
  end.

Definition starts_left (t : tier) : nat :=
  match t with
  | Launching | Degraded _ _ => 1
  | _ => 0
  end.

(** The [e] of [except ImportError as e], where it is bound. *)
Definition captured (t : tier) : option exn :=
  match t with
  | Degraded e _ | Serving e _ _ => Some e
  | _ => None
  end.

(** ** The handler when a write can raise

    [print] raises when stdout cannot encode the line (a [str] with a lone
    surrogate under the strict error handler), [json.dumps] when it meets
    a value it cannot write, a write to the socket when the peer is gone.
    [raises f] is what performing [f] does: [None] when it goes through,
    the exception otherwise; an effect that raised is not in the output. *)

Section HandlerIO.

Variable py_int : string -> exn + Z.
Variable json_loads : string -> option pyval.
Variable e : exn.
Variable raises : effect -> option exn.

Definition perform (f : effect) : M unit :=
  fun s =>
    match raises f with
    | Some err => (inl err, s, [])
    | None => (inr tt, s, [f])
    end.

Definition json_headers_io : M unit :=
  perform (send_header "Content-type" "application/json") ;;
  perform end_headers.

(** Lines 130-154. *)
Definition do_GET_io (req : request) (w : world) : M unit :=
  if String.eqb (path req) "/api/cleanup/status" then
    perform (send_response 200) ;;
    json_headers_io ;;
    last_cleanup_result <- get_global ;;
    perform (wfile_write (Some 2%nat) last_cleanup_result)
  else if existsb (String.eqb (path req))
                  ["/api/cleanup/health"; "/health"; "/"] then
    perform (send_response 200) ;;
    json_headers_io ;;
    let response := health_response e (now_isoformat w) in
    perform (wfile_write (Some 2%nat) response)
  else
    perform (send_response 200) ;;
    json_headers_io ;;
    let response := fallback_response in
    perform (wfile_write None response).

(** Lines 176-222.  What lines 178-188 raise before the call is the
    answer of [import_cleanup_api]; the call of line 189 is marked by
    [run_until_complete], and whether it raises is the world's answer. *)
Definition cleanup_block_io (retention_hours : pyval) (w : world) : M unit :=
  try_except
    (lift (match import_cleanup_api w with
           | Some err => inl err
           | None => inr tt
           end) ;;
     emit (run_until_complete retention_hours) ;;
     result <- lift (run_cleanup_operation w retention_hours) ;;
     set_global result ;;
     status <- lift (py_get result "status" PNone) ;;
     (if py_eq_str status "success"
      then perform (send_response 200)
      else perform (send_response 500)) ;;
     json_headers_io ;;
     perform (wfile_write (Some 2%nat) result) ;;
     status' <- lift (py_get result "status" PNone) ;;
     perform (print (LogCompleted status')))
    (fun cleanup_error =>
       perform (print (LogCleanupFailed cleanup_error)) ;;
       perform print_exc ;;
       let response := error_response cleanup_error (utcnow_isoformat w) in
       set_global response ;;
       perform (send_response 500) ;;
       json_headers_io ;;
       perform (wfile_write (Some 2%nat) response)).

(** Lines 156-237.  An exception of the last handler leaves [do_POST]. *)
Definition do_POST_io (req : request) (w : world) : M unit :=
  if String.eqb (path req) "/api/cleanup" then
    try_except
      (body <- read_body py_int req ;;
       let retention_hours := parse_retention_hours json_loads body in
       perform (print (LogReceived retention_hours)) ;;
       cleanup_block_io retention_hours w)
      (fun e' =>
         perform (print (LogPostError e')) ;;
         perform (send_response 500) ;;
         json_headers_io ;;
         let error := post_error e' (utcnow_isoformat w) in
         perform (wfile_write None error))
  else
    perform (send_response 404) ;;
    json_headers_io ;;
    let error := not_found (path req) in
    perform (wfile_write None error).

(** Lines 239-241. *)
Definition do_HEAD_io (req : request) (w : world) : M unit :=
  perform (send_response 200) ;;
  perform end_headers.

Definition handle_io (req : request) (w : world) : M unit :=
  if String.eqb (command req) "GET" then do_GET_io req w
  else if String.eqb (command req) "POST" then do_POST_io req w
  else if String.eqb (command req) "HEAD" then do_HEAD_io req w
  else perform (send_error 501).

End HandlerIO.

(** Two computations that do the same from every state. *)
Definition agree {A} (m1 m2 : M A) : Prop := forall s, m1 s = m2 s.

(** A computation that never calls the cleanup operation. *)
Definition quiet {A} (m : M A) : Prop :=
  forall s, cleanup_calls (snd (m s)) = [].

(** A [str] json.loads makes of the escape [\ud800]: one lone surrogate,
    here as the three bytes UTF-8 would give it were it allowed. *)
Definition lone_surrogate : string :=
  String (Ascii.ascii_of_nat 237)
    (String (Ascii.ascii_of_nat 160)
       (String (Ascii.ascii_of_nat 128) EmptyString)).

Definition body_surrogate : string :=
  "{" ++ dq ++ "retention_hours" ++ dq ++ ": " ++ dq ++ "\ud800" ++ dq ++ "}".

(** [sample_json_loads], with that body as well. *)
Definition surrogate_json_loads (body : string) : option pyval :=
  if String.eqb body body_surrogate
  then Some (PDict [("retention_hours", PStr lone_surrogate)])
  else sample_json_loads body.

(** What [print] raises on line 173 for that value: a
    [UnicodeEncodeError], which is a [ValueError]. *)
Definition surrogate_error : exn :=
  mkExn ValueError
    "'utf-8' codec can't encode character '\ud800' in position 56: surrogates not allowed".

(** A UTF-8 stdout with the strict error handler, as far as the requests
    below go: the line of line 173 with the lone surrogate raises, every
    other effect goes through. *)
Definition strict_stdout (f : effect) : option exn :=
  match f with
  | print (LogReceived (PStr s)) =>
      if String.eqb s lone_surrogate then Some surrogate_error else None
  | _ => None
  end.

(** A result [json.dumps] cannot write, as far as the requests below go:
    a body with [indent=2] whose [status] is [success] raises, every other
    effect goes through. *)
Definition unwritable_success (f : effect) : option exn :=
  match f with
  | wfile_write (Some _) (PDict items) =>
      match dict_get items "status" with
      | Some (PStr status) =>
          if String.eqb status "success"
          then Some (mkExn ValueError "Circular reference detected")
          else None
      | _ => None
      end
  | _ => None
  end.

(** * Properties of the handler *)

Section HandlerFacts.

Variable py_int : string -> exn + Z.
Variable json_loads : string -> option pyval.
Variable e : exn.

Lemma read_body_eq (req : request) (st : pyval) :
  read_body py_int req st = (received_body py_int req, st, []).
Proof.
  unfold received_body, read_body, bind, lift, ret.
  destruct (content_length req) as [s|]; [destruct (py_int s) as [err|n]|];
    cbn; try reflexivity.
  destruct (0 <? n); [destruct (rfile req)|]; reflexivity.
Qed.

(** The four ways out of the inner [try] of lines 176-222. *)
Lemma cleanup_block_eq (rh : pyval) (w : world) (st : pyval) :
  cleanup_block rh w st =
  let failed err calls :=
    (inr tt, error_response err (utcnow_isoformat w),
     calls ++ [print (LogCleanupFailed err); print_exc]
           ++ json_reply 500 (Some 2%nat)
                (error_response err (utcnow_isoformat w)))%list in
  match import_cleanup_api w with
  | Some err => failed err []
  | None =>
      match run_cleanup_operation w rh with
      | inl err => failed err [run_until_complete rh]
      | inr result =>
          match py_get result "status" PNone with
          | inl err => failed err [run_until_complete rh]
          | inr status =>
              (inr tt, result,
               run_until_complete rh
                 :: json_reply (if py_eq_str status "success" then 200 else 500)
                      (Some 2%nat) result
                 ++ [print (LogCompleted status)])%list
          end
      end
  end.
Proof.
  unfold cleanup_block, try_except, bind, lift, emit, set_global, json_headers.
  destruct (import_cleanup_api w) as [err|]; cbn; [reflexivity|].
  destruct (run_cleanup_operation w rh) as [err|result]; cbn; [reflexivity|].
  unfold bind, emit.
  destruct (py_get result "status" PNone) as [err|status]; cbn; [reflexivity|].
  destruct (py_eq_str status "success"); reflexivity.
Qed.

Lemma cleanup_block_returns (rh : pyval) (w : world) (st : pyval) :
  exists st' out, cleanup_block rh w st = (inr tt, st', out).
Proof.
  rewrite cleanup_block_eq.
  destruct (import_cleanup_api w); [cbn; eauto|].
  destruct (run_cleanup_operation w rh) as [|result]; [cbn; eauto|].
  destruct (py_get result "status" PNone); cbn; eauto.
Qed.

(** The cleanup operation is called at most once, with the argument of
    the block. *)
Lemma cleanup_block_calls (rh : pyval) (w : world) (st : pyval) :
  cleanup_calls (snd (cleanup_block rh w st)) =
  match import_cleanup_api w with
  | Some _ => []
  | None => [run_until_complete rh]
  end.
Proof.
  rewrite cleanup_block_eq.
  destruct (import_cleanup_api w); [reflexivity|].
  destruct (run_cleanup_operation w rh) as [|result]; [reflexivity|].
  destruct (py_get result "status" PNone); reflexivity.
Qed.

(** Once the body is read, [POST /api/cleanup] is the log line of line
    173 followed by the cleanup block, on the parsed retention. *)
Lemma do_POST_body_read (req : request) (w : world) (st : pyval) (body : string) :
  path req = "/api/cleanup" ->
  received_body py_int req = inr body ->
  do_POST py_int json_loads req w st =
  (emit (print (LogReceived (parse_retention_hours json_loads body))) ;;
   cleanup_block (parse_retention_hours json_loads body) w) st.
Proof.
  intros Hpath Hbody. unfold do_POST. rewrite Hpath.
  change (String.eqb "/api/cleanup" "/api/cleanup") with true. cbn iota.
  unfold try_except, bind at 1. rewrite read_body_eq, Hbody.
  unfold bind, emit. cbn.
  destruct (cleanup_block_returns (parse_retention_hours json_loads body) w st)
    as (st' & out & ->).
  reflexivity.
Qed.

(** When the body cannot be read, it is the outer handler of lines
    224-230, and nothing else. *)
Lemma do_POST_body_unread (req : request) (w : world) (st : pyval) (err : exn) :
  path req = "/api/cleanup" ->
  received_body py_int req = inl err ->
  do_POST py_int json_loads req w st =
  (inr tt, st,
   print (LogPostError err)
     :: json_reply 500 None (post_error err (utcnow_isoformat w))).
Proof.
  intros Hpath Hbody. unfold do_POST. rewrite Hpath.
  change (String.eqb "/api/cleanup" "/api/cleanup") with true. cbn iota.
  unfold try_except, bind at 1. rewrite read_body_eq, Hbody.
  reflexivity.
Qed.

Lemma received_body_raises (req : request) (err : exn) :
  received_body py_int req = inl err <->
  exists s, content_length req = Some s /\
            (py_int s = inl err \/
             exists n, py_int s = inr n /\ 0 < n /\ rfile req = inl err).
Proof.
  unfold received_body, read_body, bind, lift, ret.
  destruct (content_length req) as [s|]; cbn.
  - destruct (py_int s) as [err0|n] eqn:Hint; cbn.
    + split.
      * intros [= ->]. exists s. auto.
      * intros (s' & [= <-] & [H | (n & H & _)]); congruence.
    + destruct (0 <? n) eqn:Hpos; [destruct (rfile req) as [err0|bytes] eqn:Hr|]; cbn.
      * split.
        -- intros [= ->]. exists s. split; [reflexivity|]. right.
           exists n. repeat split; auto. now apply Z.ltb_lt.
        -- intros (s' & [= <-] & [H | (n' & H & _ & H')]); congruence.
      * split; [discriminate|].
        intros (s' & [= <-] & [H | (n' & H & _ & H')]); congruence.
      * split; [discriminate|].
        intros (s' & [= <-] & [H | (n' & H & Hlt & _)]); [congruence|].
        assert (n' = n) by congruence. subst n'.
        apply Z.ltb_lt in Hlt. congruence.
  - split; [discriminate|]. intros (s & H & _). discriminate.
Qed.

(** The whole of a [POST /api/cleanup] whose body was read, in terms of
    the retention it parsed. *)
Lemma do_POST_with_retention
      (req : request) (w : world) (st : pyval) (body : string) (rh : pyval) :
  path req = "/api/cleanup" ->
  received_body py_int req = inr body ->
  parse_retention_hours json_loads body = rh ->
  exists st' out,
    do_POST py_int json_loads req w st = (inr tt, st', out)
    /\ (inr tt, st', out) =
       (emit (print (LogReceived rh)) ;; cleanup_block rh w) st
    /\ cleanup_calls out =
       match import_cleanup_api w with
       | Some _ => []
       | None => [run_until_complete rh]
       end
    /\ post_failed out = false.
Proof.
  intros Hpath Hbody Hrh.
  rewrite (do_POST_body_read req w st body Hpath Hbody), Hrh.
  unfold bind, emit.
  pose proof (cleanup_block_calls rh w st) as Hcalls.
  rewrite cleanup_block_eq in *.
  destruct (import_cleanup_api w) as [err|].
  { cbn in *. eexists _, _. repeat split. }
  destruct (run_cleanup_operation w rh) as [err|result].
  { cbn in *. eexists _, _. repeat split. }
  destruct (py_get result "status" PNone) as [err|status].
  { cbn in *. eexists _, _. repeat split. }
  cbn in *. eexists _, _. repeat split.
Qed.

Lemma malformed_parses_to_24 (req : request) :
  json_loads "{}" = Some (PDict []) ->
  json_loads "" = None ->
  malformed_or_absent py_int json_loads req ->
  exists body,
    received_body py_int req = inr body
    /\ parse_retention_hours json_loads body = PInt 24.
Proof.
  intros Hobj Hnil Hbad. unfold parse_retention_hours.
  destruct Hbad as [Habs | s n Hcl Hint Hle | Hemp | body Hb Hnone
                    | body data Hb Hsome Hlacks].
  - exists "{}". unfold received_body, read_body, bind, lift, ret.
    rewrite Habs, Hobj. split; reflexivity.
  - exists "{}". unfold received_body, read_body, bind, lift, ret.
    rewrite Hcl, Hint, Hobj. cbn.
    replace (0 <? n) with false by (symmetry; apply Z.ltb_ge; exact Hle).
    split; reflexivity.
  - exists "". rewrite Hnil. split; [exact Hemp | reflexivity].
  - exists body. rewrite Hnone. split; [exact Hb | reflexivity].
  - exists body. rewrite Hsome. split; [exact Hb|].
    destruct data; try reflexivity. cbn in *.
    destruct (dict_get items "retention_hours"); [discriminate | reflexivity].
Qed.

(** C5: a [POST /api/cleanup] whose body is absent, of length zero,
    empty, unparsable, or parsed to a value without [retention_hours],
    runs the cleanup block with [retention_hours = 24]: the only call of
    the cleanup operation has the argument 24, and the request does not
    end in the handler of lines 224-230.  The two facts about
    [json.loads] are those of Python's parser. *)
Theorem malformed_body_defaults_to_24 (req : request) (w : world) (st : pyval) :
  json_loads "{}" = Some (PDict []) ->
  json_loads "" = None ->
  path req = "/api/cleanup" ->
  malformed_or_absent py_int json_loads req ->
  exists st' out,
    do_POST py_int json_loads req w st = (inr tt, st', out)
    /\ (inr tt, st', out) =
       (emit (print (LogReceived (PInt 24))) ;; cleanup_block (PInt 24) w) st
    /\ cleanup_calls out =
       match import_cleanup_api w with
       | Some _ => []
       | None => [run_until_complete (PInt 24)]
       end
    /\ post_failed out = false.
Proof.
  intros Hobj Hnil Hpath Hbad.
  destruct (malformed_parses_to_24 req Hobj Hnil Hbad) as (body & Hb & H24).
  exact (do_POST_with_retention req w st body (PInt 24) Hpath Hb H24).
Qed.




(** C7: when the [Content-Length] header is not an integer, or reading
    the body raises, the answer to [POST /api/cleanup] is 500 with the
    body [{error: str(err), timestamp: utcnow}] and
    [last_cleanup_result] is what it was. *)
Theorem unreadable_body_leaves_result
        (req : request) (w : world) (st : pyval) (s : string) (err : exn) :
  path req = "/api/cleanup" ->
  content_length req = Some s ->
  (py_int s = inl err
   \/ exists n, py_int s = inr n /\ 0 < n /\ rfile req = inl err) ->
  exists out,
    do_POST py_int json_loads req w st = (inr tt, st, out)
    /\ wire out =
       json_reply 500 None
         (PDict [("error", PStr (exn_str err));
                 ("timestamp", PStr (utcnow_isoformat w))])
    /\ cleanup_calls out = [].
Proof.
  intros Hpath Hcl Hraise.
  assert (Hb : received_body py_int req = inl err).
  { apply received_body_raises. exists s. auto. }
  rewrite (do_POST_body_unread req w st err Hpath Hb).
  eexists. repeat split.
Qed.

(** C2, as amended: off the listed routes, a POST is answered 404 with
    [{error: "Not Found", path: <the path>}], a GET is answered 200 with
    [{status: "degraded", message: "Fallback mode"}], and a HEAD is
    answered 200 with no body; none of them touches
    [last_cleanup_result]. *)
Theorem unlisted_route_reply (req : request) (w : world) (st : pyval) :
  listed_route (command req) (path req) = false ->
  (command req = "POST" ->
   handle py_int json_loads e req w st =
   (inr tt, st,
    json_reply 404 None
      (PDict [("error", PStr "Not Found"); ("path", PStr (path req))])))
  /\ (command req = "GET" ->
      handle py_int json_loads e req w st =
      (inr tt, st,
       json_reply 200 None
         (PDict [("status", PStr "degraded");
                 ("message", PStr "Fallback mode")])))
  /\ (command req = "HEAD" ->
      handle py_int json_loads e req w st =
      (inr tt, st, [send_response 200; end_headers])).
Proof.
  intros Hunlisted. unfold listed_route in Hunlisted.
  unfold handle. repeat split; intros Hcmd; rewrite Hcmd in *; cbn in *.
  - unfold do_POST.
    destruct (String.eqb (path req) "/api/cleanup"); [discriminate|].
    reflexivity.
  - unfold do_GET. cbn [existsb].
    rewrite !orb_false_r in Hunlisted.
    destruct (String.eqb (path req) "/api/cleanup/status") eqn:H1;
      [rewrite !orb_true_r in Hunlisted; discriminate|].
    destruct (String.eqb (path req) "/api/cleanup/health") eqn:H2;
      [rewrite !orb_true_r in Hunlisted; cbn in Hunlisted; discriminate|].
    destruct (String.eqb (path req) "/health") eqn:H3;
      [rewrite !orb_true_r in Hunlisted; cbn in Hunlisted; discriminate|].
    destruct (String.eqb (path req) "/") eqn:H4;
      [cbn in Hunlisted; discriminate|].
    reflexivity.
  - reflexivity.
Qed.

End HandlerFacts.

(** * Properties of the supervisor *)

Section SupervisorFacts.

Variable py_int : string -> exn + Z.
Variable json_loads : string -> option pyval.

Lemma handle_get_status (e : exn) (req : request) (w : world) (st : pyval) :
  command req = "GET" ->
  path req = "/api/cleanup/status" ->
  handle py_int json_loads e req w st = (inr tt, st, json_reply 200 (Some 2%nat) st).
Proof.
  intros Hcmd Hpath. unfold handle, do_GET. rewrite Hcmd, Hpath. reflexivity.
Qed.

Lemma handle_get_health (e : exn) (req : request) (w : world) (st : pyval) :
  command req = "GET" ->
  path req = "/health" ->
  handle py_int json_loads e req w st =
  (inr tt, st, json_reply 200 (Some 2%nat) (health_response e (now_isoformat w))).
Proof.
  intros Hcmd Hpath. unfold handle, do_GET. rewrite Hcmd, Hpath. reflexivity.
Qed.

(** Only [do_POST] assigns the global. *)
Lemma handle_not_post (e : exn) (req : request) (w : world) (st : pyval) :
  String.eqb (command req) "POST" = false ->
  exists out, handle py_int json_loads e req w st = (inr tt, st, out).
Proof.
  intros Hcmd. unfold handle. rewrite Hcmd.
  destruct (String.eqb (command req) "GET").
  - unfold do_GET.
    destruct (String.eqb (path req) "/api/cleanup/status"); [cbn; eauto|].
    destruct (existsb _ _); cbn; eauto.
  - destruct (String.eqb (command req) "HEAD"); eexists; reflexivity.
Qed.

Lemma run_app (t : tier) (l1 l2 : list input) :
  run py_int json_loads t (l1 ++ l2) =
  match run py_int json_loads t l1 with
  | Some (t1, out1) =>
      match run py_int json_loads t1 l2 with
      | Some (t2, out2) => Some (t2, (out1 ++ out2)%list)
      | None => None
      end
  | None => None
  end.
Proof.
  revert t. induction l1 as [|i l1 IH]; intros t; cbn.
  - destruct (run py_int json_loads t l2) as [[t2 out2]|]; reflexivity.
  - destruct (step py_int json_loads t i) as [[t1 out1]|]; [|reflexivity].
    rewrite IH. destruct (run py_int json_loads t1 l1) as [[t1' out1']|]; [|reflexivity].
    destruct (run py_int json_loads t1' l2) as [[t2 out2]|]; [|reflexivity].
    now rewrite app_assoc.
Qed.


Lemma step_untouched (t t' : tier) (i : input) (out : list effect) :
  is_post i = false ->
  untouched t ->
  step py_int json_loads t i = Some (t', out) ->
  untouched t'.
Proof.
  intros Hi Ht Hstep.
  destruct t; destruct i; cbn in Hstep; try discriminate.
  - destruct outcome as [err|[]]; [destruct (isinstance_ImportError err)|];
      injection Hstep as <- _; exact I || reflexivity.
  - destruct (port_of_env py_int PORT) as [err|port];
      [|destruct (server_bind port)]; injection Hstep as <- _; cbn; auto.
  - cbn in Hi. destruct (handle_not_post e req w last_cleanup_result Hi)
      as (out' & Heq).
    rewrite Heq in Hstep. injection Hstep as <- _. exact Ht.
  - injection Hstep as <- _. exact I.
  - injection Hstep as <- _. exact I.
  - injection Hstep as <- _. exact I.
Qed.

Lemma run_untouched (inputs : list input) (t t' : tier) (out : list effect) :
  no_post inputs = true ->
  untouched t ->
  run py_int json_loads t inputs = Some (t', out) ->
  untouched t'.
Proof.
  revert t out. induction inputs as [|i inputs IH]; cbn; intros t out Hno Ht Hrun.
  - injection Hrun as <- _. exact Ht.
  - apply andb_true_iff in Hno as [Hi Hrest]. apply negb_true_iff in Hi.
    destruct (step py_int json_loads t i) as [[t1 out1]|] eqn:Hstep; [|discriminate].
    destruct (run py_int json_loads t1 inputs) as [[t2 out2]|] eqn:Hrun'; [|discriminate].
    injection Hrun as <- _.
    exact (IH t1 out2 Hrest (step_untouched t t1 i out1 Hi Ht Hstep) Hrun').
Qed.

(** The loop of lines 259-261 has no way out. *)
Lemma keep_alive_step (i : input) (t : tier) (out : list effect) :
  step py_int json_loads KeepAlive i = Some (t, out) -> t = KeepAlive.
Proof.
  destruct i; cbn; try discriminate. now intros [= <- _].
Qed.

Lemma keep_alive_closed (inputs : list input) (t : tier) (out : list effect) :
  run py_int json_loads KeepAlive inputs = Some (t, out) -> t = KeepAlive.
Proof.
  revert out. induction inputs as [|i inputs IH]; intros out Hrun;
    cbn [run] in Hrun.
  - now injection Hrun as <- _.
  - destruct (step py_int json_loads KeepAlive i) as [[t1 out1]|] eqn:Hstep; [|discriminate].
    apply keep_alive_step in Hstep. subst t1.
    destruct (run py_int json_loads KeepAlive inputs) as [[t2 out2]|] eqn:Hrun'; [|discriminate].
    injection Hrun as <- _. exact (IH out2 eq_refl).
Qed.

Lemma keep_alive_beats (nows : list string) :
  run py_int json_loads KeepAlive (map wake_up nows) = Some (KeepAlive, heartbeats nows).
Proof.
  induction nows as [|now nows IH]; cbn; [reflexivity|].
  rewrite IH. reflexivity.
Qed.

(** Nothing after [except Exception] (lines 263-273) starts a server. *)
Lemma debug_keep_alive_closed (inputs : list input) (t : tier) (out : list effect) :
  run py_int json_loads DebugKeepAlive inputs = Some (t, out) ->
  t = DebugKeepAlive \/ exists uncaught, t = Exited uncaught.
Proof.
  destruct inputs as [|i inputs]; cbn.
  - intros [= <- _]. now left.
  - destruct i; try discriminate. cbn.
    destruct inputs as [|i' inputs]; cbn.
    + intros [= <- _]. right. eauto.
    + destruct i'; discriminate.
Qed.

(** Line 273 reads [datetime], which only line 120 imports: the path
    of [except Exception] ends at its first wake-up. *)
Lemma debug_keep_alive_exits (err : exn) (now : string) :
  isinstance_ImportError err = false ->
  run py_int json_loads Launching [launch (inl err); wake_up now] =
  Some (Exited (mkExn NameError "name 'datetime' is not defined"),
        [print (LogStartupFailed err); print_exc; print LogKeepingAlive;
         sleep 300]).
Proof.
  intros Hcls. cbn. now rewrite Hcls.
Qed.

(** Line 247 is outside the [try] of line 248: a [PORT] that [int]
    rejects ends the process before any server is tried. *)
Lemma bad_port_exits
      (e : exn) (st : pyval) (s : string) (err : exn)
      (server_bind : Z -> option exn) :
  py_int s = inl err ->
  step py_int json_loads (Degraded e st) (start_server (Some s) server_bind) =
  Some (Exited err, [print LogStartingFallback]).
Proof.
  intros Hint. cbn. now rewrite Hint.
Qed.

(** No step goes back up the ladder. *)
Lemma step_rank (t t' : tier) (i : input) (out : list effect) :
  step py_int json_loads t i = Some (t', out) -> (rank t <= rank t')%nat.
Proof.
  destruct t; destruct i; cbn -[port_of_env handle]; try discriminate.
  - destruct outcome as [err|[]]; [destruct (isinstance_ImportError err)|];
      intros [= <- _]; cbn; lia.
  - destruct (port_of_env py_int PORT) as [err|port];
      [|destruct (server_bind port)]; intros [= <- _]; cbn; lia.
  - destruct (handle py_int json_loads e req w last_cleanup_result)
      as [[r st'] out']. intros [= <- _]. cbn. lia.
  - intros [= <- _]. cbn. lia.
  - intros [= <- _]. cbn. lia.
  - intros [= <- _]. cbn. lia.
Qed.

(** C1, as amended: a launch that raises an [ImportError] (the
    application's code cannot be loaded) takes the supervisor to the
    degraded tier with that error captured, and [GET /health] of the
    server started there reports it; a launch that raises any other
    exception goes to the path of lines 263-273, from which no tier
    with the fallback server is reached. *)
Theorem launch_failure_tiers (err : exn) :
  (isinstance_ImportError err = true ->
   step py_int json_loads Launching (launch (inl err)) =
   Some (Degraded err initial_cleanup_result, [print (LogImportFailed err)])
   /\ forall PORT server_bind port req w,
        port_of_env py_int PORT = inr port ->
        server_bind port = None ->
        command req = "GET" ->
        path req = "/health" ->
        run py_int json_loads Launching
          [launch (inl err); start_server PORT server_bind; http_request req w] =
        Some (Serving err port initial_cleanup_result,
              [print (LogImportFailed err);
               print LogStartingFallback;
               print (LogServerReady port)]
              ++ json_reply 200 (Some 2%nat)
                   (health_response err (now_isoformat w)))%list)
  /\ (isinstance_ImportError err = false ->
      step py_int json_loads Launching (launch (inl err)) =
      Some (DebugKeepAlive,
            [print (LogStartupFailed err); print_exc; print LogKeepingAlive])
      /\ forall inputs t out,
           run py_int json_loads Launching (launch (inl err) :: inputs)
             = Some (t, out) ->
           in_degraded_tier t = false).
Proof.
  split; intros Hcls.
  - split; [cbn; now rewrite Hcls|].
    intros PORT server_bind port req w Hport Hbind Hcmd Hpath.
    cbn -[port_of_env handle]. rewrite Hcls.
    cbn -[port_of_env handle]. rewrite Hport, Hbind.
    cbn -[port_of_env handle].
    rewrite (handle_get_health err req w _ Hcmd Hpath). reflexivity.
  - split; [cbn; now rewrite Hcls|].
    intros inputs t out. cbn [run]. cbn [step]. rewrite Hcls.
    destruct (run py_int json_loads DebugKeepAlive inputs)
      as [[t2 out2]|] eqn:Hrun; [|discriminate].
    intros [= <- _].
    destruct (debug_keep_alive_closed inputs t2 out2 Hrun) as [->|[x ->]];
      reflexivity.
Qed.


(** C8: as long as no POST has been handled since the process started,
    [GET /api/cleanup/status] is answered 200 with the initial result:
    status [never_run], a null timestamp, and a message. *)
Theorem status_before_any_post
        (inputs : list input) (e : exn) (port : Z) (st : pyval)
        (out : list effect) (req : request) (w : world) :
  no_post inputs = true ->
  run py_int json_loads Launching inputs = Some (Serving e port st, out) ->
  command req = "GET" ->
  path req = "/api/cleanup/status" ->
  step py_int json_loads (Serving e port st) (http_request req w)
  = Some (Serving e port st,
          json_reply 200 (Some 2%nat)
            (PDict [("timestamp", PNone);
                    ("status", PStr "never_run");
                    ("message", PStr "Cleanup unavailable in fallback mode")])).
Proof.
  intros Hno Hrun Hcmd Hpath.
  pose proof (run_untouched inputs Launching _ out Hno I Hrun) as Hst.
  cbn in Hst. subst st. cbn [step].
  rewrite (handle_get_status e req w _ Hcmd Hpath). reflexivity.
Qed.

(** C9: when the fallback server cannot be bound, or [serve_forever]
    raises, the supervisor enters the keep-alive loop; there every
    wake-up is one [sleep(60)] followed by one heartbeat line, the loop
    goes on for as many wake-ups as there are, and no input takes it to
    another tier. *)
Theorem server_failure_enters_keep_alive
        (e : exn) (st : pyval) (PORT : option string) (port : Z)
        (server_bind : Z -> option exn) (server_error : exn) :
  port_of_env py_int PORT = inr port ->
  server_bind port = Some server_error ->
  step py_int json_loads (Degraded e st) (start_server PORT server_bind) =
  Some (KeepAlive,
        [print LogStartingFallback;
         print (LogServerFailed server_error);
         print LogEnteringWait])
  /\ step py_int json_loads (Serving e port st) (serve_forever_raises server_error) =
     Some (KeepAlive,
           [print (LogServerFailed server_error); print LogEnteringWait])
  /\ (forall nows,
        run py_int json_loads KeepAlive (map wake_up nows) =
        Some (KeepAlive, heartbeats nows))
  /\ (forall now,
        step py_int json_loads KeepAlive (wake_up now) =
        Some (KeepAlive, [sleep 60; print (LogStillAlive now)]))
  /\ (forall inputs t out,
        run py_int json_loads KeepAlive inputs = Some (t, out) -> t = KeepAlive).
Proof.
  intros Hport Hbind. repeat split.
  - cbn -[port_of_env]. now rewrite Hport, Hbind.
  - apply keep_alive_beats.
  - apply keep_alive_closed.
Qed.

End SupervisorFacts.

(** * The theorems at concrete requests *)

(** C1 fails as stated: a launch that raises a [RuntimeError] never
    reaches a tier with the fallback server, whatever happens next. *)
Lemma runtime_error_never_degraded :
  ~ (exists inputs t out,
       run sample_int sample_json_loads Launching
         (launch (inl (mkExn RuntimeError "boom")) :: inputs) = Some (t, out)
       /\ in_degraded_tier t = true).
Proof.
  intros (inputs & t & out & Hrun & Hin).
  cbn [run step] in Hrun. cbn in Hrun.
  destruct (run sample_int sample_json_loads DebugKeepAlive inputs)
    as [[t2 out2]|] eqn:Hrest; [|discriminate].
  injection Hrun as <- _.
  destruct (debug_keep_alive_closed sample_int sample_json_loads inputs t2 out2 Hrest)
    as [->|[x ->]]; discriminate.
Qed.

Lemma launch_failure_tiers_witness :
  run sample_int sample_json_loads Launching
    [launch (inl import_error);
     start_server (Some "8080") (fun _ => None);
     http_request (get "/health") sample_world] =
  Some (Serving import_error 8080 initial_cleanup_result,
        [print (LogImportFailed import_error);
         print LogStartingFallback;
         print (LogServerReady 8080)]
        ++ json_reply 200 (Some 2%nat)
             (health_response import_error "2025-01-01T10:00:00"))%list
  /\ step sample_int sample_json_loads Launching
       (launch (inl (mkExn RuntimeError "boom"))) =
     Some (DebugKeepAlive,
           [print (LogStartupFailed (mkExn RuntimeError "boom"));
            print_exc; print LogKeepingAlive]).
Proof.
  destruct (launch_failure_tiers sample_int sample_json_loads import_error)
    as [Himport _].
  destruct (launch_failure_tiers sample_int sample_json_loads
              (mkExn RuntimeError "boom")) as [_ Hother].
  split.
  - apply (proj2 (Himport eq_refl) (Some "8080") (fun _ => None) 8080
             (get "/health") sample_world); reflexivity.
  - exact (proj1 (Hother eq_refl)).
Defined.

(** C2 fails as stated: [GET /nope] is off the listed routes and is
    answered 200, not 404. *)
Lemma get_unlisted_path_is_not_404 :
  listed_route "GET" "/nope" = false
  /\ wire (snd (handle sample_int sample_json_loads import_error
                  (get "/nope") sample_world initial_cleanup_result))
     = json_reply 200 None fallback_response
  /\ wire (snd (handle sample_int sample_json_loads import_error
                  (get "/nope") sample_world initial_cleanup_result))
     <> json_reply 404 None (not_found "/nope").
Proof.
  repeat split. discriminate.
Qed.

Lemma unlisted_route_reply_witness :
  listed_route "POST" "/api/other" = false
  /\ handle sample_int sample_json_loads import_error
       (mkRequest "POST" "/api/other" None (inr "")) sample_world
       initial_cleanup_result
     = (inr tt, initial_cleanup_result,
        json_reply 404 None
          (PDict [("error", PStr "Not Found"); ("path", PStr "/api/other")]))
  /\ handle sample_int sample_json_loads import_error
       (get "/nope") sample_world initial_cleanup_result
     = (inr tt, initial_cleanup_result,
        json_reply 200 None
          (PDict [("status", PStr "degraded"); ("message", PStr "Fallback mode")]))
  /\ handle sample_int sample_json_loads import_error
       (mkRequest "HEAD" "/health" None (inr "")) sample_world
       initial_cleanup_result
     = (inr tt, initial_cleanup_result, [send_response 200; end_headers]).
Proof.
  split; [reflexivity|]. split; [|split].
  - apply (unlisted_route_reply sample_int sample_json_loads import_error
             (mkRequest "POST" "/api/other" None (inr "")) sample_world
             initial_cleanup_result); reflexivity.
  - apply (unlisted_route_reply sample_int sample_json_loads import_error
             (get "/nope") sample_world initial_cleanup_result); reflexivity.
  - apply (unlisted_route_reply sample_int sample_json_loads import_error
             (mkRequest "HEAD" "/health" None (inr "")) sample_world
             initial_cleanup_result); reflexivity.
Defined.



Lemma malformed_body_defaults_to_24_witness :
  exists st' out,
    do_POST sample_int sample_json_loads (post_cleanup (Some "8") "not json")
      sample_world initial_cleanup_result = (inr tt, st', out)
    /\ cleanup_calls out = [run_until_complete (PInt 24)]
    /\ post_failed out = false.
Proof.
  destruct (malformed_body_defaults_to_24 sample_int sample_json_loads
              (post_cleanup (Some "8") "not json") sample_world
              initial_cleanup_result eq_refl eq_refl eq_refl
              (body_unparsable sample_int sample_json_loads
                 (post_cleanup (Some "8") "not json") "not json"
                 eq_refl eq_refl))
    as (st' & out & Hpost & _ & Hcalls & Hfail).
  exists st', out. repeat split; assumption.
Defined.

Lemma unreadable_body_leaves_result_witness :
  exists out,
    do_POST sample_int sample_json_loads (post_cleanup (Some "abc") body_48)
      sample_world sample_result = (inr tt, sample_result, out)
    /\ wire out =
       json_reply 500 None
         (PDict [("error", PStr "invalid literal for int() with base 10: 'abc'");
                 ("timestamp", PStr "2025-01-01T09:00:00")])
    /\ cleanup_calls out = [].
Proof.
  exact (unreadable_body_leaves_result sample_int sample_json_loads
           (post_cleanup (Some "abc") body_48) sample_world sample_result
           "abc"
           (mkExn ValueError "invalid literal for int() with base 10: 'abc'")
           eq_refl eq_refl (or_introl eq_refl)).
Defined.


Lemma status_before_any_post_witness :
  run sample_int sample_json_loads Launching
    [launch (inl import_error);
     start_server None (fun _ => None);
     http_request (get "/health") sample_world;
     http_request (mkRequest "HEAD" "/" None (inr "")) sample_world]
  = Some (Serving import_error 8000 initial_cleanup_result,
          [print (LogImportFailed import_error);
           print LogStartingFallback;
           print (LogServerReady 8000)]
          ++ json_reply 200 (Some 2%nat)
               (health_response import_error "2025-01-01T10:00:00")
          ++ [send_response 200; end_headers])%list
  /\ step sample_int sample_json_loads
       (Serving import_error 8000 initial_cleanup_result)
       (http_request (get "/api/cleanup/status") sample_world)
     = Some (Serving import_error 8000 initial_cleanup_result,
             json_reply 200 (Some 2%nat)
               (PDict [("timestamp", PNone);
                       ("status", PStr "never_run");
                       ("message", PStr "Cleanup unavailable in fallback mode")])).
Proof.
  split; [reflexivity|].
  exact (status_before_any_post sample_int sample_json_loads
           [launch (inl import_error);
            start_server None (fun _ => None);
            http_request (get "/health") sample_world;
            http_request (mkRequest "HEAD" "/" None (inr "")) sample_world]
           import_error 8000 initial_cleanup_result _
           (get "/api/cleanup/status") sample_world
           eq_refl eq_refl eq_refl eq_refl).
Defined.

Lemma server_failure_enters_keep_alive_witness :
  step sample_int sample_json_loads (Degraded import_error initial_cleanup_result)
    (start_server (Some "8080")
       (fun _ => Some (mkExn OSError "[Errno 98] Address already in use")))
  = Some (KeepAlive,
          [print LogStartingFallback;
           print (LogServerFailed (mkExn OSError "[Errno 98] Address already in use"));
           print LogEnteringWait])
  /\ run sample_int sample_json_loads KeepAlive
       (map wake_up ["10:01"; "10:02"; "10:03"])
     = Some (KeepAlive,
             [sleep 60; print (LogStillAlive "10:01");
              sleep 60; print (LogStillAlive "10:02");
              sleep 60; print (LogStillAlive "10:03")]).
Proof.
  destruct (server_failure_enters_keep_alive sample_int sample_json_loads
              import_error initial_cleanup_result (Some "8080") 8080
              (fun _ => Some (mkExn OSError "[Errno 98] Address already in use"))
              (mkExn OSError "[Errno 98] Address already in use")
              eq_refl eq_refl)
    as (Hstart & _ & Hbeats & _).
  split; [exact Hstart|].
  exact (Hbeats ["10:01"; "10:02"; "10:03"]).
Defined.

(** A string and a null, run: they go to the cleanup operation as they
    are. *)
Example string_retention_forwarded :
  cleanup_calls
    (snd (do_POST sample_int sample_json_loads (post_cleanup (Some "26") body_abc)
            sample_world initial_cleanup_result))
  = [run_until_complete (PStr "abc")].
Proof. reflexivity. Qed.

Example null_retention_forwarded :
  cleanup_calls
    (snd (do_POST sample_int sample_json_loads (post_cleanup (Some "25") body_null)
            sample_world initial_cleanup_result))
  = [run_until_complete PNone].
Proof. reflexivity. Qed.

(** A body that is a JSON array has no [get]: the bare [except] of line
    170 turns that into 24 as well. *)
Example array_body_defaults :
  cleanup_calls
    (snd (do_POST sample_int sample_json_loads (post_cleanup (Some "6") "[1, 2]")
            sample_world initial_cleanup_result))
  = [run_until_complete (PInt 24)].
Proof. reflexivity. Qed.

(** * Properties of the preparation of [sys.path] *)

Lemma startswith_spec (pre s : string) :
  startswith pre s = true <-> exists post, s = pre ++ post.
Proof.
  revert s. induction pre as [|a pre IH]; intros s; cbn.
  - split; [eauto | reflexivity].
  - destruct s as [|b s]; cbn.
    + split; [discriminate | intros [post H]; discriminate].
    + rewrite andb_true_iff, IH. split.
      * intros [Hab [post ->]]. apply Ascii.eqb_eq in Hab. subst b. eauto.
      * intros [post [= <- ->]]. split; [apply Ascii.eqb_refl | eauto].
Qed.

(** [str_in] is Python's [in]: [sub] occurs in [s] exactly when [s] is
    some text, then [sub], then some text. *)
Lemma str_in_spec (sub s : string) :
  str_in sub s = true <-> exists pre post, s = pre ++ sub ++ post.
Proof.
  induction s as [|c s IH].
  - cbn [str_in]. rewrite orb_false_r, startswith_spec. split.
    + intros [post H]. exists "", post. exact H.
    + intros (pre & post & H). destruct pre; [cbn in H; eauto | discriminate].
  - cbn [str_in]. rewrite orb_true_iff, startswith_spec, IH. split.
    + intros [[post H] | (pre & post & H)].
      * exists "", post. exact H.
      * exists (String c pre), post. cbn. now rewrite H.
    + intros (pre & post & H). destruct pre as [|c' pre]; cbn in H.
      * left. eauto.
      * right. injection H as _ H. eauto.
Qed.

Lemma split_paths_eq (l removed kept : list string) :
  split_paths l removed kept =
  ((removed ++ filter is_system_path l)%list,
   (kept ++ filter (fun p => negb (is_system_path p)) l)%list).
Proof.
  revert removed kept. induction l as [|p l IH]; intros removed kept; cbn.
  - now rewrite !app_nil_r.
  - destruct (is_system_path p); rewrite IH; cbn; now rewrite <- app_assoc.
Qed.

Lemma filter_negb_id (f : string -> bool) (l : list string) :
  filter (fun p => negb (f p)) (filter (fun p => negb (f p)) l)
  = filter (fun p => negb (f p)) l.
Proof.
  induction l as [|p l IH]; cbn; [reflexivity|].
  destruct (f p) eqn:Hf; cbn; [exact IH|]. rewrite Hf. cbn. now rewrite IH.
Qed.

Lemma filter_none (f : string -> bool) (l : list string) :
  filter f (filter (fun p => negb (f p)) l) = [].
Proof.
  induction l as [|p l IH]; cbn; [reflexivity|].
  destruct (f p) eqn:Hf; cbn; [exact IH|]. now rewrite Hf.
Qed.

Lemma filter_partition_perm (f : string -> bool) (l : list string) :
  Permutation l (filter f l ++ filter (fun p => negb (f p)) l).
Proof.
  induction l as [|p l IH]; cbn; [constructor|].
  destruct (f p); cbn.
  - now constructor.
  - now apply Permutation_cons_app.
Qed.

(** X1: the loop of lines 16-21 splits [sys.path] in two without losing,
    adding or reordering anything: the removed entries are those the test
    of line 17 accepts, the new path is the others, each in the original
    order, and the two counts printed on lines 25-26 add up to the
    original length. *)
Theorem split_paths_partition (original_path : list string) :
  fst (split_paths original_path [] []) = filter is_system_path original_path
  /\ snd (split_paths original_path [] [])
     = filter (fun p => negb (is_system_path p)) original_path
  /\ Permutation original_path
       (fst (split_paths original_path [] [])
        ++ snd (split_paths original_path [] []))
  /\ (length (fst (split_paths original_path [] []))
      + length (snd (split_paths original_path [] []))
      = length original_path)%nat.
Proof.
  rewrite split_paths_eq. cbn [fst snd app].
  repeat split.
  - apply filter_partition_perm.
  - rewrite <- length_app. symmetry.
    apply Permutation_length, filter_partition_perm.
Qed.

(** X2: an entry stays on [sys.path] exactly when neither
    [/agents/python] nor [/opt/python] occurs anywhere in it. *)
Theorem new_path_has_no_system_path (original_path : list string) (p : string) :
  In p (snd (split_paths original_path [] [])) <->
  In p original_path
  /\ (forall pre post, p <> pre ++ "/agents/python" ++ post)
  /\ (forall pre post, p <> pre ++ "/opt/python" ++ post).
Proof.
  rewrite split_paths_eq. cbn [snd app]. rewrite filter_In.
  unfold is_system_path. rewrite negb_true_iff, orb_false_iff.
  split.
  - intros (Hin & Ha & Ho). repeat split; [exact Hin| |]; intros pre post Heq.
    + assert (str_in "/agents/python" p = true)
        by (apply str_in_spec; eauto). congruence.
    + assert (str_in "/opt/python" p = true)
        by (apply str_in_spec; eauto). congruence.
  - intros (Hin & Ha & Ho). repeat split; [exact Hin| |].
    + destruct (str_in "/agents/python" p) eqn:H; [|reflexivity].
      apply str_in_spec in H as (pre & post & H). now elim (Ha pre post).
    + destruct (str_in "/opt/python" p) eqn:H; [|reflexivity].
      apply str_in_spec in H as (pre & post & H). now elim (Ho pre post).
Qed.

(** X3: running the loop again on the path it produced removes nothing. *)
Theorem split_paths_idempotent (original_path : list string) :
  split_paths (snd (split_paths original_path [] [])) [] []
  = ([], snd (split_paths original_path [] [])).
Proof.
  rewrite !split_paths_eq. cbn [fst snd app].
  now rewrite filter_none, filter_negb_id.
Qed.

Lemma find_venv_some (l : list string) (v : string) :
  find_venv l = Some v ->
  exists l1 l2,
    l = (l1 ++ v :: l2)%list
    /\ is_venv_path v = true
    /\ Forall (fun p => is_venv_path p = false) l1.
Proof.
  induction l as [|p l IH]; cbn; [discriminate|].
  destruct (is_venv_path p) eqn:Hp.
  - intros [= ->]. exists [], l. auto.
  - intros Hfind. destruct (IH Hfind) as (l1 & l2 & -> & Hv & Hl1).
    exists (p :: l1), l2. auto.
Qed.

Lemma find_venv_app (l1 l2 : list string) (v : string) :
  Forall (fun p => is_venv_path p = false) l1 ->
  is_venv_path v = true ->
  find_venv (l1 ++ v :: l2) = Some v.
Proof.
  induction 1 as [|p l1 Hp _ IH]; intros Hv; cbn.
  - now rewrite Hv.
  - rewrite Hp. exact (IH Hv).
Qed.

Lemma list_remove_first (v : string) (l1 l2 : list string) :
  ~ In v l1 ->
  list_remove v (l1 ++ v :: l2) = inr (l1 ++ l2)%list.
Proof.
  induction l1 as [|p l1 IH]; cbn; intros Hnot.
  - now rewrite String.eqb_refl.
  - destruct (String.eqb_spec p v) as [->|_]; [tauto|].
    rewrite IH; tauto.
Qed.

Lemma existsb_eqb_middle (v : string) (l1 l2 : list string) :
  existsb (String.eqb v) (l1 ++ v :: l2) = true.
Proof.
  apply existsb_exists. exists v. split.
  - apply in_elt.
  - apply String.eqb_refl.
Qed.

(** What lines 35-40 do with the entry line 31 found. *)
Lemma prioritize_venv_found (v : string) (l1 l2 : list string) :
  is_venv_path v = true ->
  Forall (fun p => is_venv_path p = false) l1 ->
  prioritize_venv (l1 ++ v :: l2) = inr (v :: l1 ++ l2)%list.
Proof.
  intros Hv Hl1. unfold prioritize_venv.
  rewrite (find_venv_app l1 l2 v Hl1 Hv).
  assert (Hne : String.eqb v "" = false).
  { destruct v; [discriminate | reflexivity]. }
  rewrite Hne. cbn [negb]. rewrite existsb_eqb_middle.
  rewrite list_remove_first; [reflexivity|].
  intros Hin. rewrite Forall_forall in Hl1. specialize (Hl1 v Hin). congruence.
Qed.

(** X4: when some entry of [sys.path] names both [antenv] and
    [site-packages], the first such entry is moved to the front and the
    other entries keep their order; when none does, [sys.path] stays as
    it is. *)
Theorem venv_moved_to_front (sys_path : list string) :
  (find_venv sys_path = None /\ prioritize_venv sys_path = inr sys_path)
  \/ exists v l1 l2,
       sys_path = (l1 ++ v :: l2)%list
       /\ is_venv_path v = true
       /\ Forall (fun p => is_venv_path p = false) l1
       /\ prioritize_venv sys_path = inr (v :: l1 ++ l2)%list.
Proof.
  destruct (find_venv sys_path) as [v|] eqn:Hfind.
  - right. destruct (find_venv_some sys_path v Hfind) as (l1 & l2 & -> & Hv & Hl1).
    exists v, l1, l2. repeat split; auto using prioritize_venv_found.
  - left. unfold prioritize_venv. now rewrite Hfind.
Qed.

Lemma prioritize_venv_perm (sys_path : list string) :
  exists new_path,
    prioritize_venv sys_path = inr new_path /\ Permutation sys_path new_path.
Proof.
  destruct (find_venv sys_path) as [v|] eqn:Hfind.
  - destruct (find_venv_some sys_path v Hfind) as (l1 & l2 & -> & Hv & Hl1).
    exists (v :: l1 ++ l2)%list. split; [now apply prioritize_venv_found|].
    symmetry. apply Permutation_middle.
  - exists sys_path. unfold prioritize_venv. rewrite Hfind. auto.
Qed.

(** X5: lines 35-40 never raise (the test of line 38 guards the
    [remove]) and neither lose nor duplicate an entry: the new [sys.path]
    is a rearrangement of the old one. *)
Theorem prioritize_venv_rearranges (sys_path : list string) :
  exists new_path,
    prioritize_venv sys_path = inr new_path
    /\ Permutation sys_path new_path
    /\ length new_path = length sys_path.
Proof.
  destruct (prioritize_venv_perm sys_path) as (new_path & Heq & Hperm).
  exists new_path. repeat split; [exact Heq | exact Hperm |].
  symmetry. now apply Permutation_length.
Qed.

(** X6: doing lines 29-40 again changes nothing: the entry found is
    already in front. *)
Theorem prioritize_venv_idempotent (sys_path new_path : list string) :
  prioritize_venv sys_path = inr new_path ->
  prioritize_venv new_path = inr new_path.
Proof.
  intros Hfirst.
  destruct (find_venv sys_path) as [v|] eqn:Hfind.
  - destruct (find_venv_some sys_path v Hfind) as (l1 & l2 & -> & Hv & Hl1).
    rewrite (prioritize_venv_found v l1 l2 Hv Hl1) in Hfirst.
    injection Hfirst as <-.
    exact (prioritize_venv_found v [] (l1 ++ l2) Hv (Forall_nil _)).
  - unfold prioritize_venv in Hfirst. rewrite Hfind in Hfirst.
    injection Hfirst as <-. unfold prioritize_venv. now rewrite Hfind.
Qed.

Lemma prioritize_venv_idempotent_witness :
  prioritize_venv ["/home/site/wwwroot"; "/tmp/antenv/lib/site-packages"; "/usr/lib"]
  = inr ["/tmp/antenv/lib/site-packages"; "/home/site/wwwroot"; "/usr/lib"]
  /\ prioritize_venv
       ["/tmp/antenv/lib/site-packages"; "/home/site/wwwroot"; "/usr/lib"]
     = inr ["/tmp/antenv/lib/site-packages"; "/home/site/wwwroot"; "/usr/lib"].
Proof.
  split; [reflexivity|].
  exact (prioritize_venv_idempotent
           ["/home/site/wwwroot"; "/tmp/antenv/lib/site-packages"; "/usr/lib"]
           ["/tmp/antenv/lib/site-packages"; "/home/site/wwwroot"; "/usr/lib"]
           eq_refl).
Defined.

(** X7: the two steps together: the [sys.path] the launch runs with
    exists (no step raises), holds exactly the entries of the original
    path that are no system paths, each as often as before, and so never
    has a system path in front, even one that names [antenv] and
    [site-packages]. *)
Theorem prepared_path_has_no_system_path (original_path : list string) :
  exists new_path,
    prepare_sys_path original_path = inr new_path
    /\ Permutation
         (filter (fun p => negb (is_system_path p)) original_path) new_path
    /\ Forall (fun p => is_system_path p = false) new_path.
Proof.
  unfold prepare_sys_path. rewrite split_paths_eq. cbn [snd app].
  destruct (prioritize_venv_perm
              (filter (fun p => negb (is_system_path p)) original_path))
    as (new_path & Heq & Hperm).
  exists new_path. repeat split; [exact Heq | exact Hperm |].
  apply Forall_forall. intros p Hin.
  apply (Permutation_in _ (Permutation_sym Hperm)) in Hin.
  apply filter_In in Hin as [_ Hp]. now apply negb_true_iff.
Qed.

(** * Properties of the Sentinel shim *)

Lemma append_length (a c : string) :
  String.length (a ++ c) = (String.length a + String.length c)%nat.
Proof.
  induction a as [|x a IH]; cbn; [reflexivity | now rewrite IH].
Qed.

Lemma append_inj_r (a b c : string) : a ++ c = b ++ c -> a = b.
Proof.
  intros H.
  assert (Hlen : String.length a = String.length b).
  { apply (f_equal String.length) in H. rewrite !append_length in H. lia. }
  revert b H Hlen. induction a as [|x a IH]; intros [|y b] H Hlen;
    try discriminate; [reflexivity|].
  cbn in H. injection H as -> H. f_equal. apply IH; [exact H|].
  cbn in Hlen. lia.
Qed.

(** X8: a sentinel made without a name, or with the empty name, is
    called [Sentinel]; no sentinel has an empty name, so none prints as
    [<>]; and two sentinels print alike only when they have the same
    name. *)
Theorem sentinel_repr_names (name : option string) :
  sentinel_name (new_sentinel name) <> ""
  /\ (name = None \/ name = Some "" ->
      sentinel_repr (new_sentinel name) = "<Sentinel>")
  /\ (forall n, name = Some n -> n <> "" ->
      sentinel_repr (new_sentinel name) = "<" ++ n ++ ">")
  /\ (forall other,
        sentinel_repr (new_sentinel name) = sentinel_repr other ->
        new_sentinel name = other).
Proof.
  repeat split.
  - destruct name as [n|]; cbn; [|discriminate].
    destruct (String.eqb_spec n ""); cbn; [discriminate | assumption].
  - intros [-> | ->]; reflexivity.
  - intros n -> Hn. cbn. destruct (String.eqb_spec n ""); [contradiction | reflexivity].
  - intros [other_name]. unfold sentinel_repr. cbn [sentinel_name].
    intros H. injection H as H. apply append_inj_r in H.
    destruct (new_sentinel name) as [n]. cbn in H. now subst.
Qed.

(** * Further properties of the handler *)

Lemma py_get_inr (v : pyval) (key : string) (default x : pyval) :
  py_get v key default = inr x ->
  exists items,
    v = PDict items
    /\ x = match dict_get items key with Some y => y | None => default end.
Proof.
  destruct v; cbn; try discriminate. intros [= <-]. eauto.
Qed.

Lemma py_get_inl (v : pyval) (key : string) (default : pyval) (err : exn) :
  py_get v key default = inl err ->
  is_dict v = false
  /\ err = mkExn AttributeError
             ("'" ++ type_name v ++ "' object has no attribute 'get'").
Proof.
  destruct v; cbn; try discriminate; intros [= <-]; auto.
Qed.

Lemma py_eq_str_true (v : pyval) (s : string) :
  py_eq_str v s = true -> v = PStr s.
Proof.
  destruct v; cbn; try discriminate. intros H. apply String.eqb_eq in H. now subst.
Qed.

Section HandlerExtras.

Variable py_int : string -> exn + Z.
Variable json_loads : string -> option pyval.
Variable e : exn.

(** The ways through [do_POST] on [/api/cleanup]: the body unread, the
    import failed, the call raised, the result had no [get], the result
    was a [dict]. *)
Ltac post_cases req w st Hpath :=
  destruct (received_body py_int req) as [err|body] eqn:Hbody;
  [ rewrite (do_POST_body_unread py_int json_loads req w st err Hpath Hbody)
  | rewrite (do_POST_body_read py_int json_loads req w st body Hpath Hbody);
    unfold bind, emit; rewrite cleanup_block_eq;
    destruct (import_cleanup_api w) as [err|] eqn:Himp;
    [ | destruct (run_cleanup_operation w (parse_retention_hours json_loads body))
          as [err|result] eqn:Hrun;
        [ | destruct (py_get result "status" PNone) as [err|status] eqn:Hget ] ] ];
  cbn.

Lemma do_POST_elsewhere (req : request) (w : world) (st : pyval) :
  path req <> "/api/cleanup" ->
  do_POST py_int json_loads req w st =
  (inr tt, st, json_reply 404 None (not_found (path req))).
Proof.
  intros Hpath. unfold do_POST.
  destruct (String.eqb_spec (path req) "/api/cleanup"); [contradiction | reflexivity].
Qed.

Lemma handle_post (req : request) (w : world) :
  command req = "POST" ->
  handle py_int json_loads e req w = do_POST py_int json_loads req w.
Proof.
  intros Hcmd. unfold handle. now rewrite Hcmd.
Qed.

(** A request leaves the global alone, or it is a POST to [/api/cleanup]
    whose body was read, and then the new global is a [dict]. *)
Lemma handle_global (req : request) (w : world) (st : pyval) :
  exists st' out,
    handle py_int json_loads e req w st = (inr tt, st', out)
    /\ (st' = st
        \/ (command req = "POST"
            /\ path req = "/api/cleanup"
            /\ (exists body, received_body py_int req = inr body)
            /\ is_dict st' = true)).
Proof.
  destruct (String.eqb (command req) "POST") eqn:Hcmd.
  - apply String.eqb_eq in Hcmd. rewrite (handle_post req w Hcmd).
    destruct (String.eqb_spec (path req) "/api/cleanup") as [Hpath|Hpath].
    + post_cases req w st Hpath; eexists _, _; (split; [reflexivity|]); auto;
        right; repeat split; eauto.
      apply py_get_inr in Hget as (items & -> & _). reflexivity.
    + rewrite (do_POST_elsewhere req w st Hpath). eauto.
  - destruct (handle_not_post py_int json_loads e req w st Hcmd) as (out & ->).
    eauto.
Qed.

(** On a stdout and a socket that take every write, each request has
    one status line: 200, 404 or 500 from the handler, or the 501 of the
    base class for a method the class has no [do_] method for. *)
Lemma handle_one_status_line (req : request) (w : world) (st : pyval) :
  exists code st' out,
    handle py_int json_loads e req w st = (inr tt, st', out)
    /\ status_lines out = [code]
    /\ In code [200; 404; 500; 501].
Proof.
  assert (Hone : forall (x : (exn + unit) * pyval * list effect) code,
             fst (fst x) = inr tt ->
             status_lines (snd x) = [code] -> In code [200; 404; 500; 501] ->
             exists code st' out,
               x = (inr tt, st', out)
               /\ status_lines out = [code]
               /\ In code [200; 404; 500; 501]).
  { intros [[r st'] out] code Hr H1 H2. cbn in Hr, H1. subst r.
    exists code, st', out. auto. }
  destruct (String.eqb (command req) "POST") eqn:Hcmd.
  - apply String.eqb_eq in Hcmd. rewrite (handle_post req w Hcmd).
    destruct (String.eqb_spec (path req) "/api/cleanup") as [Hpath|Hpath].
    + post_cases req w st Hpath;
        try (apply (Hone _ 500); [reflexivity | reflexivity | cbn; tauto]).
      destruct (py_eq_str status "success");
        [apply (Hone _ 200) | apply (Hone _ 500)];
        try reflexivity; cbn; tauto.
    + rewrite (do_POST_elsewhere req w st Hpath).
      apply (Hone _ 404); [reflexivity | reflexivity | cbn; tauto].
  - unfold handle. rewrite Hcmd.
    destruct (String.eqb (command req) "GET").
    + unfold do_GET.
      destruct (String.eqb (path req) "/api/cleanup/status");
        [|destruct (existsb _ _)];
        (apply (Hone _ 200); [reflexivity | reflexivity | cbn; tauto]).
    + destruct (String.eqb (command req) "HEAD").
      * apply (Hone _ 200); [reflexivity | reflexivity | cbn; tauto].
      * apply (Hone _ 501); [reflexivity | reflexivity | cbn; tauto].
Qed.

(** X10: a GET is always answered 200 with a JSON body, on every path
    and in every state, and leaves [last_cleanup_result] as it is. *)
Theorem get_always_200 (req : request) (w : world) (st : pyval) :
  command req = "GET" ->
  exists indent v,
    handle py_int json_loads e req w st = (inr tt, st, json_reply 200 indent v).
Proof.
  intros Hcmd. unfold handle, do_GET. rewrite Hcmd, String.eqb_refl.
  destruct (String.eqb (path req) "/api/cleanup/status");
    [eexists _, _; reflexivity|].
  destruct (existsb _ _); eexists _, _; reflexivity.
Qed.

(** X11: on [/], [/health] and [/api/cleanup/health] a GET is answered
    200 whatever the captured launch error is, and the body carries
    [str(e)] under [error] next to [status: degraded]. *)
Theorem health_reports_launch_error (req : request) (w : world) (st : pyval) :
  command req = "GET" ->
  In (path req) ["/"; "/health"; "/api/cleanup/health"] ->
  exists body,
    handle py_int json_loads e req w st = (inr tt, st, json_reply 200 (Some 2%nat) body)
    /\ py_get body "status" PNone = inr (PStr "degraded")
    /\ py_get body "error" PNone = inr (PStr (exn_str e))
    /\ py_get body "timestamp" PNone = inr (PStr (now_isoformat w))
    /\ py_get body "cleanup_api" PNone = inr (PStr "available").
Proof.
  intros Hcmd Hpath. exists (health_response e (now_isoformat w)).
  unfold handle, do_GET. rewrite Hcmd.
  destruct Hpath as [<- | [<- | [<- | []]]]; repeat split.
Qed.

(** X12: a POST is answered 200 in one case only: the path is
    [/api/cleanup], the body was read, the cleanup operation was imported
    and returned a [dict] whose [status] is the string [success]. *)
Theorem post_200_iff_success (req : request) (w : world) (st : pyval) :
  command req = "POST" ->
  status_lines (snd (handle py_int json_loads e req w st)) = [200]
  <-> path req = "/api/cleanup"
      /\ exists body items,
           received_body py_int req = inr body
           /\ import_cleanup_api w = None
           /\ run_cleanup_operation w (parse_retention_hours json_loads body)
              = inr (PDict items)
           /\ dict_get items "status" = Some (PStr "success").
Proof.
  intros Hcmd. rewrite (handle_post req w Hcmd). split.
  - destruct (String.eqb_spec (path req) "/api/cleanup") as [Hpath|Hpath].
    + post_cases req w st Hpath; try discriminate.
      destruct (py_eq_str status "success") eqn:Hok; cbn; [|discriminate].
      intros _. split; [exact Hpath|].
      apply py_get_inr in Hget as (items & -> & ->).
      apply py_eq_str_true in Hok.
      exists body, items. repeat split; [exact Hrun|].
      destruct (dict_get items "status"); congruence.
    + rewrite (do_POST_elsewhere req w st Hpath). discriminate.
  - intros (Hpath & body & items & Hbody & Himp & Hrun & Hok).
    rewrite (do_POST_body_read py_int json_loads req w st body Hpath Hbody).
    unfold bind, emit. rewrite cleanup_block_eq, Himp, Hrun. cbn.
    rewrite Hok. reflexivity.
Qed.

(** On a stdout and a socket that take every write, the body [POST
    /api/cleanup] answers with (once its own body is read) is the value
    it leaves in [last_cleanup_result]. *)
Lemma do_POST_reply_stored
      (req : request) (w : world) (st : pyval) (body : string) :
  path req = "/api/cleanup" ->
  received_body py_int req = inr body ->
  exists code st' out,
    do_POST py_int json_loads req w st = (inr tt, st', out)
    /\ wire out = json_reply code (Some 2%nat) st'
    /\ (code = 200 \/ code = 500)
    /\ is_dict st' = true
    /\ forall req' w',
         command req' = "GET" ->
         path req' = "/api/cleanup/status" ->
         handle py_int json_loads e req' w' st'
         = (inr tt, st', json_reply 200 (Some 2%nat) st').
Proof.
  intros Hpath Hbody.
  rewrite (do_POST_body_read py_int json_loads req w st body Hpath Hbody).
  unfold bind, emit. rewrite cleanup_block_eq.
  destruct (import_cleanup_api w) as [err|];
    [|destruct (run_cleanup_operation w (parse_retention_hours json_loads body))
        as [err|result];
      [|destruct (py_get result "status" PNone) as [err|status] eqn:Hget]];
    cbn.
  1-3: exists 500; eexists _, _; repeat split; auto;
       intros req' w'; apply handle_get_status.
  apply py_get_inr in Hget as (items & -> & _).
  eexists _, _, _. split; [reflexivity|]. split; [reflexivity|].
  split; [destruct (py_eq_str _ _); auto|].
  split; [reflexivity|]. intros req' w'. apply handle_get_status.
Qed.

(** X14: a cleanup operation that returns something that is no [dict]
    ([None], a list, a number) is reported like one that raised: the
    [AttributeError] of line 195 is caught, the answer is 500 with the
    error result, and the error result, not the returned value assigned
    on line 192, is what [last_cleanup_result] ends up as. *)
Theorem non_dict_result_is_error
        (req : request) (w : world) (st : pyval) (body : string) (v : pyval) :
  path req = "/api/cleanup" ->
  received_body py_int req = inr body ->
  import_cleanup_api w = None ->
  run_cleanup_operation w (parse_retention_hours json_loads body) = inr v ->
  is_dict v = false ->
  let stored :=
    error_response
      (mkExn AttributeError
         ("'" ++ type_name v ++ "' object has no attribute 'get'"))
      (utcnow_isoformat w) in
  exists out,
    do_POST py_int json_loads req w st = (inr tt, stored, out)
    /\ wire out = json_reply 500 (Some 2%nat) stored.
Proof.
  intros Hpath Hbody Himp Hrun Hv stored.
  rewrite (do_POST_body_read py_int json_loads req w st body Hpath Hbody).
  unfold bind, emit. rewrite cleanup_block_eq, Himp, Hrun.
  destruct v; try discriminate; cbn; eexists; split; reflexivity.
Qed.

(** X15: the cleanup operation is called by nothing but a POST to
    [/api/cleanup] whose body was read and whose import succeeded, and
    then once, with the retention parsed from that body. *)
Theorem cleanup_only_from_post_cleanup (req : request) (w : world) (st : pyval) :
  cleanup_calls (snd (handle py_int json_loads e req w st)) <> [] ->
  command req = "POST"
  /\ path req = "/api/cleanup"
  /\ import_cleanup_api w = None
  /\ exists body,
       received_body py_int req = inr body
       /\ cleanup_calls (snd (handle py_int json_loads e req w st))
          = [run_until_complete (parse_retention_hours json_loads body)].
Proof.
  destruct (String.eqb (command req) "POST") eqn:Hcmd.
  - apply String.eqb_eq in Hcmd. rewrite (handle_post req w Hcmd).
    destruct (String.eqb_spec (path req) "/api/cleanup") as [Hpath|Hpath].
    + destruct (received_body py_int req) as [err|body] eqn:Hbody.
      * rewrite (do_POST_body_unread py_int json_loads req w st err Hpath Hbody).
        cbn. congruence.
      * destruct (do_POST_with_retention py_int json_loads req w st body _
                    Hpath Hbody eq_refl) as (st' & out & -> & _ & Hcalls & _).
        cbn [snd]. rewrite Hcalls.
        destruct (import_cleanup_api w); [congruence|]. eauto 6.
    + rewrite (do_POST_elsewhere req w st Hpath). cbn. congruence.
  - unfold handle. rewrite Hcmd.
    destruct (String.eqb (command req) "GET").
    + unfold do_GET.
      destruct (String.eqb (path req) "/api/cleanup/status");
        [|destruct (existsb _ _)]; cbn; congruence.
    + destruct (String.eqb (command req) "HEAD"); cbn; congruence.
Qed.

(** X16: [last_cleanup_result] changes only in a POST to [/api/cleanup]
    whose body was read; every other request, of any method, and every
    POST whose body could not be read, leaves it as it was. *)
Theorem global_changes_only_in_post_cleanup
        (req : request) (w : world) (st : pyval) :
  snd (fst (handle py_int json_loads e req w st)) <> st ->
  command req = "POST"
  /\ path req = "/api/cleanup"
  /\ exists body, received_body py_int req = inr body.
Proof.
  destruct (handle_global req w st) as (st' & out & -> & Hcases). cbn.
  intros Hne. destruct Hcases as [-> | (Hcmd & Hpath & Hbody & _)]; tauto.
Qed.

End HandlerExtras.

(** * Further properties of the supervisor *)

Section SupervisorExtras.

Variable py_int : string -> exn + Z.
Variable json_loads : string -> option pyval.

Lemma run_cons (t : tier) (i : input) (inputs : list input)
      (t' : tier) (out : list effect) :
  run py_int json_loads t (i :: inputs) = Some (t', out) ->
  exists t1 out1 out2,
    step py_int json_loads t i = Some (t1, out1)
    /\ run py_int json_loads t1 inputs = Some (t', out2)
    /\ out = (out1 ++ out2)%list.
Proof.
  cbn [run].
  destruct (step py_int json_loads t i) as [[t1 out1]|]; [|discriminate].
  destruct (run py_int json_loads t1 inputs) as [[t2 out2]|] eqn:Hrest;
    [|discriminate].
  intros [= <- <-]. exists t1, out1, out2. repeat split. exact Hrest.
Qed.

(** [PrimaryApp] and [Exited] take no input. *)
Lemma run_stuck (t : tier) (inputs : list input) (t' : tier) (out : list effect) :
  (forall i, step py_int json_loads t i = None) ->
  run py_int json_loads t inputs = Some (t', out) ->
  inputs = [] /\ t' = t /\ out = [].
Proof.
  intros Hstuck. destruct inputs as [|i inputs]; cbn [run].
  - intros [= <- <-]. auto.
  - rewrite Hstuck. discriminate.
Qed.

Lemma step_counts (t t' : tier) (i : input) (out : list effect) :
  step py_int json_loads t i = Some (t', out) ->
  ((if is_launch i then 1 else 0) + launches_left t' <= launches_left t)%nat
  /\ ((if is_start_server i then 1 else 0) + starts_left t' <= starts_left t)%nat.
Proof.
  destruct t; destruct i; cbn -[port_of_env handle]; try discriminate.
  - destruct outcome as [err|[]]; [destruct (isinstance_ImportError err)|];
      intros [= <- _]; cbn; lia.
  - destruct (port_of_env py_int PORT) as [err|port];
      [|destruct (server_bind port)]; intros [= <- _]; cbn; lia.
  - destruct (handle py_int json_loads e req w last_cleanup_result)
      as [[r st'] out']. intros [= <- _]. cbn. lia.
  - intros [= <- _]. cbn. lia.
  - intros [= <- _]. cbn. lia.
  - intros [= <- _]. cbn. lia.
Qed.

Lemma run_counts (inputs : list input) (t t' : tier) (out : list effect) :
  run py_int json_loads t inputs = Some (t', out) ->
  (length (filter is_launch inputs) <= launches_left t)%nat
  /\ (length (filter is_start_server inputs) <= starts_left t)%nat.
Proof.
  revert t out. induction inputs as [|i inputs IH]; intros t out Hrun.
  - cbn. lia.
  - apply run_cons in Hrun as (t1 & out1 & out2 & Hstep & Hrest & _).
    apply step_counts in Hstep as [Hl Hs].
    destruct (IH t1 out2 Hrest) as [IHl IHs].
    cbn [filter]. destruct (is_launch i); destruct (is_start_server i);
      cbn [length] in *; lia.
Qed.

Lemma step_dict (t t' : tier) (i : input) (out : list effect) :
  step py_int json_loads t i = Some (t', out) ->
  (forall st, global_of t = Some st -> is_dict st = true) ->
  forall st', global_of t' = Some st' -> is_dict st' = true.
Proof.
  destruct t; destruct i; cbn -[port_of_env handle]; try discriminate.
  - destruct outcome as [err|[]]; [destruct (isinstance_ImportError err)|];
      intros [= <- _] _ st'; cbn; try discriminate. now intros [= <-].
  - destruct (port_of_env py_int PORT) as [err|port];
      [|destruct (server_bind port)]; intros [= <- _] H st'; cbn;
      try discriminate. intros [= <-]. now apply H.
  - destruct (handle_global py_int json_loads e req w last_cleanup_result)
      as (st1 & out1 & -> & Hcases).
    intros [= <- _] H st'. cbn. intros [= <-].
    destruct Hcases as [-> | (_ & _ & _ & Hd)]; [now apply H | exact Hd].
  - intros [= <- _] _ st'. discriminate.
  - intros [= <- _] _ st'. discriminate.
  - intros [= <- _] _ st'. discriminate.
Qed.

Lemma step_captured (t t' : tier) (i : input) (out : list effect) (e e' : exn) :
  step py_int json_loads t i = Some (t', out) ->
  captured t = Some e ->
  captured t' = Some e' ->
  e' = e.
Proof.
  destruct t; destruct i; cbn -[port_of_env handle]; try discriminate.
  - destruct (port_of_env py_int PORT) as [err|port];
      [|destruct (server_bind port)]; intros [= <- _]; cbn; congruence.
  - destruct (handle py_int json_loads e0 req w last_cleanup_result)
      as [[r st'] out']. intros [= <- _]. cbn. congruence.
  - intros [= <- _]. discriminate.
Qed.

Lemma step_loses_capture (t t' : tier) (i : input) (out : list effect) :
  step py_int json_loads t i = Some (t', out) ->
  t <> Launching ->
  captured t = None ->
  captured t' = None.
Proof.
  destruct t; destruct i; cbn -[port_of_env handle]; try discriminate;
    try congruence; intros [= <- _]; reflexivity.
Qed.

Lemma step_leaves_launching (t t' : tier) (i : input) (out : list effect) :
  step py_int json_loads t i = Some (t', out) -> t' <> Launching.
Proof.
  intros Hstep ->.
  destruct t; destruct i; cbn -[port_of_env handle] in Hstep; try discriminate.
  - destruct outcome as [err|[]]; [destruct (isinstance_ImportError err)|];
      discriminate.
  - destruct (port_of_env py_int PORT) as [err|port];
      [|destruct (server_bind port)]; discriminate.
  - destruct (handle py_int json_loads e req w last_cleanup_result)
      as [[r st'] out']. discriminate.
Qed.

Lemma run_rank (inputs : list input) (t t' : tier) (out : list effect) :
  run py_int json_loads t inputs = Some (t', out) -> (rank t <= rank t')%nat.
Proof.
  revert t out. induction inputs as [|i inputs IH]; intros t out Hrun.
  - cbn in Hrun. injection Hrun as <- _. lia.
  - apply run_cons in Hrun as (t1 & out1 & out2 & Hstep & Hrest & _).
    apply step_rank in Hstep. apply IH in Hrest. lia.
Qed.

Lemma run_dict (inputs : list input) (t t' : tier) (out : list effect) :
  run py_int json_loads t inputs = Some (t', out) ->
  (forall st, global_of t = Some st -> is_dict st = true) ->
  forall st', global_of t' = Some st' -> is_dict st' = true.
Proof.
  revert t out. induction inputs as [|i inputs IH]; intros t out Hrun Ht.
  - cbn in Hrun. injection Hrun as <- _. exact Ht.
  - apply run_cons in Hrun as (t1 & out1 & out2 & Hstep & Hrest & _).
    exact (IH t1 out2 Hrest (step_dict t t1 i out1 Hstep Ht)).
Qed.

Lemma run_captured (inputs : list input) (t t' : tier) (out : list effect)
      (e' : exn) :
  run py_int json_loads t inputs = Some (t', out) ->
  t <> Launching ->
  captured t' = Some e' ->
  captured t = Some e'.
Proof.
  revert t out. induction inputs as [|i inputs IH]; intros t out Hrun Ht Hcap.
  - cbn in Hrun. injection Hrun as <- _. exact Hcap.
  - apply run_cons in Hrun as (t1 & out1 & out2 & Hstep & Hrest & _).
    pose proof (IH t1 out2 Hrest (step_leaves_launching t t1 i out1 Hstep) Hcap)
      as Hcap1.
    destruct (captured t) as [e|] eqn:Hc.
    + f_equal. symmetry. exact (step_captured t t1 i out1 e e' Hstep Hc Hcap1).
    + rewrite (step_loses_capture t t1 i out1 Hstep Ht Hc) in Hcap1. discriminate.
Qed.

Lemma step_into_keep_alive (t : tier) (i : input) (out : list effect) :
  step py_int json_loads t i = Some (KeepAlive, out) ->
  t = KeepAlive \/ exists server_error, In (print (LogServerFailed server_error)) out.
Proof.
  destruct t; destruct i; cbn -[port_of_env handle]; try discriminate.
  - destruct outcome as [err|[]]; [destruct (isinstance_ImportError err)|];
      discriminate.
  - destruct (port_of_env py_int PORT) as [err|port];
      [|destruct (server_bind port) as [server_error|]]; try discriminate.
    intros [= <-]. right. exists server_error. cbn. auto.
  - destruct (handle py_int json_loads e req w last_cleanup_result)
      as [[r st'] out']. discriminate.
  - intros [= <-]. right. exists server_error. cbn. auto.
  - auto.
Qed.

Lemma run_into_keep_alive (inputs : list input) (t : tier) (out : list effect) :
  run py_int json_loads t inputs = Some (KeepAlive, out) ->
  t = KeepAlive \/ exists server_error, In (print (LogServerFailed server_error)) out.
Proof.
  revert t out. induction inputs as [|i inputs IH]; intros t out Hrun.
  - cbn in Hrun. injection Hrun as -> _. now left.
  - apply run_cons in Hrun as (t1 & out1 & out2 & Hstep & Hrest & ->).
    destruct (IH t1 out2 Hrest) as [-> | (err & Hin)].
    + destruct (step_into_keep_alive t i out1 Hstep) as [-> | (err & Hin)];
        [now left|].
      right. exists err. apply in_or_app. now left.
    + right. exists err. apply in_or_app. now right.
Qed.

(** X17: control only moves down the ladder: over any run the tier
    reached is never an earlier one than the tier started from, and once
    anything has happened the supervisor is never back at the launch. *)
Theorem run_never_steps_back
        (inputs : list input) (t t' : tier) (out : list effect) :
  run py_int json_loads t inputs = Some (t', out) ->
  (rank t <= rank t')%nat /\ (t' = Launching -> inputs = []).
Proof.
  intros Hrun. split; [exact (run_rank inputs t t' out Hrun)|].
  intros ->. destruct inputs as [|i inputs]; [reflexivity|].
  apply run_cons in Hrun as (t1 & out1 & out2 & Hstep & Hrest & _).
  pose proof (step_leaves_launching t t1 i out1 Hstep) as Hne.
  apply run_rank in Hrest. destruct t1; cbn in Hrest; try lia. contradiction.
Qed.

(** X18: when [main()] takes over, nothing of the fallback ever runs: no
    line is printed, no server is created, no handler is called. *)
Theorem launch_success_is_silent
        (inputs : list input) (t : tier) (out : list effect) :
  run py_int json_loads Launching (launch (inr tt) :: inputs) = Some (t, out) ->
  inputs = [] /\ t = PrimaryApp /\ out = [].
Proof.
  intros Hrun.
  apply run_cons in Hrun as (t1 & out1 & out2 & Hstep & Hrest & ->).
  cbn in Hstep. injection Hstep as <- <-.
  apply run_stuck in Hrest; [|intros i; destruct i; reflexivity].
  destruct Hrest as (-> & -> & ->). auto.
Qed.

(** X19: in one process the primary application is launched at most
    once and the fallback server is created at most once. *)
Theorem launch_and_server_at_most_once
        (inputs : list input) (t : tier) (out : list effect) :
  run py_int json_loads Launching inputs = Some (t, out) ->
  (length (filter is_launch inputs) <= 1)%nat
  /\ (length (filter is_start_server inputs) <= 1)%nat.
Proof.
  intros Hrun. exact (run_counts inputs Launching t out Hrun).
Qed.

(** X20: the error the health endpoints report is the one the launch
    raised, for the whole life of the server: no request in between, not
    even a POST whose own handler catches an exception under the same
    name, changes it. *)
Theorem captured_error_is_constant
        (err : exn) (inputs : list input) (e : exn) (port : Z) (st : pyval)
        (out : list effect) (req : request) (w : world) :
  run py_int json_loads Launching (launch (inl err) :: inputs)
    = Some (Serving e port st, out) ->
  command req = "GET" ->
  path req = "/health" ->
  e = err
  /\ step py_int json_loads (Serving e port st) (http_request req w)
     = Some (Serving e port st,
             json_reply 200 (Some 2%nat) (health_response err (now_isoformat w))).
Proof.
  intros Hrun Hcmd Hpath.
  assert (He : e = err).
  { apply run_cons in Hrun as (t1 & out1 & out2 & Hstep & Hrest & _).
    pose proof (run_captured inputs t1 _ out2 e Hrest
                  (step_leaves_launching _ _ _ _ Hstep) eq_refl) as Hcap.
    cbn in Hstep. destruct (isinstance_ImportError err);
      injection Hstep as <- _; cbn in Hcap; congruence. }
  subst e. split; [reflexivity|]. cbn [step].
  rewrite (handle_get_health py_int json_loads err req w st Hcmd Hpath).
  reflexivity.
Qed.

(** X21: after a launch failure that is no [ImportError] the process
    lives for one [sleep(300)] and no longer: line 273 reads [datetime],
    which only line 120 imports, so the first heartbeat is never printed
    and the [NameError] ends the process. *)
Theorem non_import_failure_ends_after_one_sleep
        (err : exn) (inputs : list input) (t : tier) (out : list effect) :
  isinstance_ImportError err = false ->
  run py_int json_loads Launching (launch (inl err) :: inputs) = Some (t, out) ->
  (inputs = [] /\ t = DebugKeepAlive
   /\ out = [print (LogStartupFailed err); print_exc; print LogKeepingAlive])
  \/ exists now,
       inputs = [wake_up now]
       /\ t = Exited (mkExn NameError "name 'datetime' is not defined")
       /\ out = [print (LogStartupFailed err); print_exc; print LogKeepingAlive;
                 sleep 300].
Proof.
  intros Hcls Hrun.
  apply run_cons in Hrun as (t1 & out1 & out2 & Hstep & Hrest & ->).
  cbn in Hstep. rewrite Hcls in Hstep. injection Hstep as <- <-.
  destruct inputs as [|i inputs].
  - cbn in Hrest. injection Hrest as <- <-. left. auto.
  - apply run_cons in Hrest as (t2 & out3 & out4 & Hstep & Hrest & ->).
    destruct i; try discriminate. cbn in Hstep. injection Hstep as <- <-.
    apply run_stuck in Hrest; [|intros i; destruct i; reflexivity].
    destruct Hrest as (-> & -> & ->). right. exists now. auto.
Qed.

(** X22: line 247 is outside the [try] of line 248: with a [PORT] that
    [int] rejects the fallback never gets as far as creating the server,
    the exception of [int] leaves the module and the process is over. *)
Theorem bad_port_ends_process
        (e : exn) (s : string) (err : exn) (server_bind : Z -> option exn)
        (inputs : list input) (t : tier) (out : list effect) :
  isinstance_ImportError e = true ->
  py_int s = inl err ->
  run py_int json_loads Launching
    (launch (inl e) :: start_server (Some s) server_bind :: inputs) = Some (t, out) ->
  inputs = [] /\ t = Exited err
  /\ out = [print (LogImportFailed e); print LogStartingFallback].
Proof.
  intros Hcls Hint Hrun.
  apply run_cons in Hrun as (t1 & out1 & out2 & Hstep & Hrest & ->).
  cbn in Hstep. rewrite Hcls in Hstep. injection Hstep as <- <-.
  apply run_cons in Hrest as (t2 & out3 & out4 & Hstep & Hrest & ->).
  cbn in Hstep. rewrite Hint in Hstep. injection Hstep as <- <-.
  apply run_stuck in Hrest; [|intros i; destruct i; reflexivity].
  destruct Hrest as (-> & -> & ->). auto.
Qed.

(** X23: the keep-alive loop is entered only after an [ImportError] at
    the launch and a failure of the fallback server: both are on the log
    of any run that reaches it. *)
Theorem keep_alive_only_after_server_failure
        (inputs : list input) (out : list effect) :
  run py_int json_loads Launching inputs = Some (KeepAlive, out) ->
  exists e server_error,
    isinstance_ImportError e = true
    /\ In (print (LogImportFailed e)) out
    /\ In (print (LogServerFailed server_error)) out.
Proof.
  intros Hrun.
  destruct (run_into_keep_alive inputs Launching out Hrun)
    as [Habs | (server_error & Hfailed)]; [discriminate|].
  destruct inputs as [|i inputs]; [discriminate|].
  apply run_cons in Hrun as (t1 & out1 & out2 & Hstep & Hrest & ->).
  destruct i; try discriminate. cbn in Hstep.
  destruct outcome as [e|[]].
  - destruct (isinstance_ImportError e) eqn:Hcls; injection Hstep as <- <-.
    + exists e, server_error. split; [exact Hcls|].
      split; [cbn; auto | exact Hfailed].
    + destruct (debug_keep_alive_closed py_int json_loads inputs _ _ Hrest)
        as [Heq | [x Heq]]; discriminate.
  - injection Hstep as <- <-.
    apply run_stuck in Hrest; [|intros i; destruct i; reflexivity].
    destruct Hrest as (_ & Heq & _). discriminate.
Qed.

(** X24: [last_cleanup_result] is a [dict] at every moment of every run:
    whatever the cleanup operation returns or raises, what [GET
    /api/cleanup/status] has to send is a JSON object. *)
Theorem last_cleanup_result_stays_dict
        (inputs : list input) (t : tier) (out : list effect) (st : pyval) :
  run py_int json_loads Launching inputs = Some (t, out) ->
  global_of t = Some st ->
  is_dict st = true.
Proof.
  intros Hrun. apply (run_dict inputs Launching t out Hrun). discriminate.
Qed.

End SupervisorExtras.

(** * The further properties at concrete inputs *)

Lemma get_always_200_witness :
  exists indent v,
    handle sample_int sample_json_loads import_error
      (get "/favicon.ico") sample_world sample_result
    = (inr tt, sample_result, json_reply 200 indent v).
Proof.
  exact (get_always_200 sample_int sample_json_loads import_error
           (get "/favicon.ico") sample_world sample_result eq_refl).
Defined.

Lemma health_reports_launch_error_witness :
  exists body,
    handle sample_int sample_json_loads (mkExn ImportError "")
      (get "/") sample_world initial_cleanup_result
    = (inr tt, initial_cleanup_result, json_reply 200 (Some 2%nat) body)
    /\ py_get body "status" PNone = inr (PStr "degraded")
    /\ py_get body "error" PNone = inr (PStr "")
    /\ py_get body "timestamp" PNone = inr (PStr "2025-01-01T10:00:00")
    /\ py_get body "cleanup_api" PNone = inr (PStr "available").
Proof.
  exact (health_reports_launch_error sample_int sample_json_loads
           (mkExn ImportError "") (get "/") sample_world initial_cleanup_result
           eq_refl (or_introl eq_refl)).
Defined.

Lemma post_200_iff_success_witness :
  status_lines
    (snd (handle sample_int sample_json_loads import_error
            (post_cleanup (Some "23") body_48) sample_world
            initial_cleanup_result)) = [200]
  /\ status_lines
       (snd (handle sample_int sample_json_loads import_error
               (post_cleanup None "") sample_world
               initial_cleanup_result)) = [500].
Proof.
  split; [|reflexivity].
  apply (post_200_iff_success sample_int sample_json_loads import_error
           (post_cleanup (Some "23") body_48) sample_world
           initial_cleanup_result eq_refl).
  split; [reflexivity|].
  exists body_48,
    [("status", PStr "success"); ("timestamp", PStr "T");
     ("retention_hours_applied", PInt 48)].
  repeat split.
Defined.

Lemma non_dict_result_is_error_witness :
  exists out,
    do_POST sample_int sample_json_loads (post_cleanup None "")
      (mkWorld "2025-01-01T10:00:00" "2025-01-01T09:00:00" None
         (fun _ => inr PNone))
      sample_result
    = (inr tt,
       PDict [("status", PStr "error");
              ("message",
               PStr "Cleanup failed in fallback mode: 'NoneType' object has no attribute 'get'");
              ("timestamp", PStr "2025-01-01T09:00:00")],
       out).
Proof.
  destruct (non_dict_result_is_error sample_int sample_json_loads
              (post_cleanup None "")
              (mkWorld "2025-01-01T10:00:00" "2025-01-01T09:00:00" None
                 (fun _ => inr PNone))
              sample_result "{}" PNone eq_refl eq_refl eq_refl eq_refl eq_refl)
    as (out & Hpost & _).
  exists out. exact Hpost.
Defined.

Lemma cleanup_only_from_post_cleanup_witness :
  cleanup_calls
    (snd (handle sample_int sample_json_loads import_error
            (post_cleanup (Some "23") body_neg5) sample_world
            initial_cleanup_result)) <> []
  /\ exists body,
       received_body sample_int (post_cleanup (Some "23") body_neg5) = inr body
       /\ cleanup_calls
            (snd (handle sample_int sample_json_loads import_error
                    (post_cleanup (Some "23") body_neg5) sample_world
                    initial_cleanup_result))
          = [run_until_complete (parse_retention_hours sample_json_loads body)].
Proof.
  assert (H : cleanup_calls
                (snd (handle sample_int sample_json_loads import_error
                        (post_cleanup (Some "23") body_neg5) sample_world
                        initial_cleanup_result)) <> []) by discriminate.
  split; [exact H|].
  exact (proj2 (proj2 (proj2
           (cleanup_only_from_post_cleanup sample_int sample_json_loads
              import_error (post_cleanup (Some "23") body_neg5) sample_world
              initial_cleanup_result H)))).
Defined.

Lemma global_changes_only_in_post_cleanup_witness :
  snd (fst (handle sample_int sample_json_loads import_error
              (post_cleanup (Some "23") body_48) sample_world
              initial_cleanup_result)) <> initial_cleanup_result
  /\ exists body,
       received_body sample_int (post_cleanup (Some "23") body_48) = inr body.
Proof.
  assert (H : snd (fst (handle sample_int sample_json_loads import_error
                          (post_cleanup (Some "23") body_48) sample_world
                          initial_cleanup_result)) <> initial_cleanup_result)
    by discriminate.
  split; [exact H|].
  exact (proj2 (proj2
           (global_changes_only_in_post_cleanup sample_int sample_json_loads
              import_error (post_cleanup (Some "23") body_48) sample_world
              initial_cleanup_result H))).
Defined.

Lemma run_never_steps_back_witness :
  run sample_int sample_json_loads (Degraded import_error initial_cleanup_result)
    [start_server (Some "8080") (fun _ => Some (mkExn OSError "in use"));
     wake_up "10:01"]
  = Some (KeepAlive,
          [print LogStartingFallback;
           print (LogServerFailed (mkExn OSError "in use"));
           print LogEnteringWait;
           sleep 60; print (LogStillAlive "10:01")])
  /\ (rank (Degraded import_error initial_cleanup_result) <= rank KeepAlive)%nat.
Proof.
  split; [reflexivity|].
  exact (proj1
           (run_never_steps_back sample_int sample_json_loads
              [start_server (Some "8080") (fun _ => Some (mkExn OSError "in use"));
               wake_up "10:01"]
              (Degraded import_error initial_cleanup_result) KeepAlive _ eq_refl)).
Defined.

Lemma launch_success_is_silent_witness :
  run sample_int sample_json_loads Launching [launch (inr tt)]
  = Some (PrimaryApp, [])
  /\ (@nil input = [] /\ PrimaryApp = PrimaryApp /\ @nil effect = []).
Proof.
  split; [reflexivity|].
  exact (launch_success_is_silent sample_int sample_json_loads
           [] PrimaryApp [] eq_refl).
Defined.

Lemma launch_and_server_at_most_once_witness :
  (length (filter is_launch
             [launch (inl import_error);
              start_server None (fun _ => None);
              http_request (get "/health") sample_world]) <= 1)%nat
  /\ (length (filter is_start_server
                [launch (inl import_error);
                 start_server None (fun _ => None);
                 http_request (get "/health") sample_world]) <= 1)%nat.
Proof.
  exact (launch_and_server_at_most_once sample_int sample_json_loads
           [launch (inl import_error);
            start_server None (fun _ => None);
            http_request (get "/health") sample_world]
           (Serving import_error 8000 initial_cleanup_result) _ eq_refl).
Defined.

Lemma captured_error_is_constant_witness :
  run sample_int sample_json_loads Launching
    [launch (inl import_error);
     start_server None (fun _ => None);
     http_request (post_cleanup (Some "abc") "") sample_world]
  = Some (Serving import_error 8000 initial_cleanup_result,
          [print (LogImportFailed import_error);
           print LogStartingFallback;
           print (LogServerReady 8000);
           print (LogPostError
                    (mkExn ValueError
                       "invalid literal for int() with base 10: 'abc'"))]
          ++ json_reply 500 None
               (post_error
                  (mkExn ValueError "invalid literal for int() with base 10: 'abc'")
                  "2025-01-01T09:00:00"))%list
  /\ step sample_int sample_json_loads
       (Serving import_error 8000 initial_cleanup_result)
       (http_request (get "/health") sample_world)
     = Some (Serving import_error 8000 initial_cleanup_result,
             json_reply 200 (Some 2%nat)
               (health_response import_error "2025-01-01T10:00:00")).
Proof.
  split; [reflexivity|].
  exact (proj2
           (captured_error_is_constant sample_int sample_json_loads
              import_error
              [start_server None (fun _ => None);
               http_request (post_cleanup (Some "abc") "") sample_world]
              import_error 8000 initial_cleanup_result _
              (get "/health") sample_world eq_refl eq_refl eq_refl)).
Defined.

Lemma non_import_failure_ends_after_one_sleep_witness :
  run sample_int sample_json_loads Launching
    [launch (inl (mkExn RuntimeError "boom")); wake_up "10:05"]
  = Some (Exited (mkExn NameError "name 'datetime' is not defined"),
          [print (LogStartupFailed (mkExn RuntimeError "boom"));
           print_exc; print LogKeepingAlive; sleep 300])
  /\ run sample_int sample_json_loads Launching
       [launch (inl (mkExn RuntimeError "boom")); wake_up "10:05"; wake_up "10:10"]
     = None.
Proof.
  split; [reflexivity|].
  destruct (run sample_int sample_json_loads Launching
              [launch (inl (mkExn RuntimeError "boom"));
               wake_up "10:05"; wake_up "10:10"])
    as [[t out]|] eqn:Hrun; [|reflexivity].
  destruct (non_import_failure_ends_after_one_sleep sample_int sample_json_loads
              (mkExn RuntimeError "boom") [wake_up "10:05"; wake_up "10:10"]
              t out eq_refl Hrun)
    as [(Habs & _) | (now & Habs & _)]; discriminate.
Defined.

Lemma bad_port_ends_process_witness :
  run sample_int sample_json_loads Launching
    [launch (inl import_error); start_server (Some "abc") (fun _ => None)]
  = Some (Exited (mkExn ValueError "invalid literal for int() with base 10: 'abc'"),
          [print (LogImportFailed import_error); print LogStartingFallback])
  /\ (@nil input = []
      /\ Exited (mkExn ValueError "invalid literal for int() with base 10: 'abc'")
         = Exited (mkExn ValueError "invalid literal for int() with base 10: 'abc'")
      /\ [print (LogImportFailed import_error); print LogStartingFallback]
         = [print (LogImportFailed import_error); print LogStartingFallback]).
Proof.
  split; [reflexivity|].
  exact (bad_port_ends_process sample_int sample_json_loads
           import_error "abc"
           (mkExn ValueError "invalid literal for int() with base 10: 'abc'")
           (fun _ => None) [] _ _ eq_refl eq_refl eq_refl).
Defined.

Lemma keep_alive_only_after_server_failure_witness :
  exists e server_error,
    isinstance_ImportError e = true
    /\ In (print (LogImportFailed e))
         [print (LogImportFailed import_error);
          print LogStartingFallback;
          print (LogServerReady 8000);
          print (LogServerFailed (mkExn OSError "select failed"));
          print LogEnteringWait]
    /\ In (print (LogServerFailed server_error))
         [print (LogImportFailed import_error);
          print LogStartingFallback;
          print (LogServerReady 8000);
          print (LogServerFailed (mkExn OSError "select failed"));
          print LogEnteringWait].
Proof.
  exact (keep_alive_only_after_server_failure sample_int sample_json_loads
           [launch (inl import_error);
            start_server None (fun _ => None);
            serve_forever_raises (mkExn OSError "select failed")]
           _ eq_refl).
Defined.

Lemma last_cleanup_result_stays_dict_witness :
  run sample_int sample_json_loads Launching
    [launch (inl import_error);
     start_server None (fun _ => None);
     http_request (post_cleanup None "")
       (mkWorld "2025-01-01T10:00:00" "2025-01-01T09:00:00" None
          (fun _ => inr (PList [])))]
  = Some (Serving import_error 8000
            (error_response
               (mkExn AttributeError "'list' object has no attribute 'get'")
               "2025-01-01T09:00:00"),
          [print (LogImportFailed import_error);
           print LogStartingFallback;
           print (LogServerReady 8000);
           print (LogReceived (PInt 24));
           run_until_complete (PInt 24);
           print (LogCleanupFailed
                    (mkExn AttributeError "'list' object has no attribute 'get'"));
           print_exc]
          ++ json_reply 500 (Some 2%nat)
               (error_response
                  (mkExn AttributeError "'list' object has no attribute 'get'")
                  "2025-01-01T09:00:00"))%list
  /\ is_dict
       (error_response
          (mkExn AttributeError "'list' object has no attribute 'get'")
          "2025-01-01T09:00:00") = true.
Proof.
  split; [reflexivity|].
  exact (last_cleanup_result_stays_dict sample_int sample_json_loads
           [launch (inl import_error);
            start_server None (fun _ => None);
            http_request (post_cleanup None "")
              (mkWorld "2025-01-01T10:00:00" "2025-01-01T09:00:00" None
                 (fun _ => inr (PList [])))]
           _ _ _ eq_refl eq_refl).
Defined.

(** * Properties of the handler when a write can raise *)

Lemma agree_refl {A} (m : M A) : agree m m.
Proof. intros s. reflexivity. Qed.

Lemma agree_bind {A B} (m1 m2 : M A) (k1 k2 : A -> M B) :
  agree m1 m2 -> (forall a, agree (k1 a) (k2 a)) ->
  agree (bind m1 k1) (bind m2 k2).
Proof.
  intros Hm Hk s. unfold bind. rewrite (Hm s).
  destruct (m2 s) as [[[err|a] s1] out1]; [reflexivity|].
  now rewrite (Hk a s1).
Qed.

Lemma agree_try {A} (m1 m2 : M A) (h1 h2 : exn -> M A) :
  agree m1 m2 -> (forall err, agree (h1 err) (h2 err)) ->
  agree (try_except m1 h1) (try_except m2 h2).
Proof.
  intros Hm Hh s. unfold try_except. rewrite (Hm s).
  destruct (m2 s) as [[[err|a] s1] out1]; [|reflexivity].
  now rewrite (Hh err s1).
Qed.

Lemma out_bind {A B} (m : M A) (k : A -> M B) (s : pyval) :
  snd (bind m k s) =
  (snd (m s)
   ++ match m s with
      | (inr a, s1, _) => snd (k a s1)
      | (inl _, _, _) => []
      end)%list.
Proof.
  unfold bind. destruct (m s) as [[[err|a] s1] out1]; cbn.
  - now rewrite app_nil_r.
  - now destruct (k a s1) as [[r s2] out2].
Qed.

Lemma out_try {A} (m : M A) (h : exn -> M A) (s : pyval) :
  snd (try_except m h s) =
  (snd (m s)
   ++ match m s with
      | (inl err, s1, _) => snd (h err s1)
      | (inr _, _, _) => []
      end)%list.
Proof.
  unfold try_except. destruct (m s) as [[[err|a] s1] out1]; cbn.
  - now destruct (h err s1) as [[r s2] out2].
  - now rewrite app_nil_r.
Qed.

Lemma calls_bind {A B} (m : M A) (k : A -> M B) (s : pyval) :
  cleanup_calls (snd (bind m k s)) =
  (cleanup_calls (snd (m s))
   ++ match m s with
      | (inr a, s1, _) => cleanup_calls (snd (k a s1))
      | (inl _, _, _) => []
      end)%list.
Proof.
  unfold bind. destruct (m s) as [[[err|a] s1] out1]; cbn.
  - now rewrite app_nil_r.
  - destruct (k a s1) as [[r s2] out2]. cbn. unfold cleanup_calls.
    apply filter_app.
Qed.

Lemma calls_try {A} (m : M A) (h : exn -> M A) (s : pyval) :
  cleanup_calls (snd (try_except m h s)) =
  (cleanup_calls (snd (m s))
   ++ match m s with
      | (inl err, s1, _) => cleanup_calls (snd (h err s1))
      | (inr _, _, _) => []
      end)%list.
Proof.
  unfold try_except. destruct (m s) as [[[err|a] s1] out1]; cbn.
  - destruct (h err s1) as [[r s2] out2]. cbn. unfold cleanup_calls.
    apply filter_app.
  - now rewrite app_nil_r.
Qed.

Lemma quiet_ret {A} (a : A) : quiet (ret a).
Proof. intros s. reflexivity. Qed.

Lemma quiet_lift {A} (r : exn + A) : quiet (lift r).
Proof. intros s. reflexivity. Qed.

Lemma quiet_get_global : quiet get_global.
Proof. intros s. reflexivity. Qed.

Lemma quiet_set_global (v : pyval) : quiet (set_global v).
Proof. intros s. reflexivity. Qed.

Lemma quiet_perform (raises : effect -> option exn) (f : effect) :
  is_cleanup_call f = false -> quiet (perform raises f).
Proof.
  intros Hf s. unfold perform. destruct (raises f); cbn; [reflexivity|].
  now rewrite Hf.
Qed.

Lemma quiet_bind {A B} (m : M A) (k : A -> M B) :
  quiet m -> (forall a, quiet (k a)) -> quiet (bind m k).
Proof.
  intros Hm Hk s. rewrite calls_bind, (Hm s).
  destruct (m s) as [[[err|a] s1] out1]; [reflexivity | apply Hk].
Qed.

Lemma quiet_try {A} (m : M A) (h : exn -> M A) :
  quiet m -> (forall err, quiet (h err)) -> quiet (try_except m h).
Proof.
  intros Hm Hh s. rewrite calls_try, (Hm s).
  destruct (m s) as [[[err|a] s1] out1]; [apply Hh | reflexivity].
Qed.

Lemma calls_try_quiet {A} (m : M A) (h : exn -> M A) (s : pyval) :
  (forall err, quiet (h err)) ->
  cleanup_calls (snd (try_except m h s)) = cleanup_calls (snd (m s)).
Proof.
  intros Hh. rewrite calls_try.
  destruct (m s) as [[[err|a] s1] out1]; cbn [snd].
  - now rewrite (Hh err s1), app_nil_r.
  - now rewrite app_nil_r.
Qed.

Section HandlerIOFacts.

Variable py_int : string -> exn + Z.
Variable json_loads : string -> option pyval.
Variable e : exn.
Variable raises : effect -> option exn.

Ltac quiet_steps :=
  repeat first
    [ apply quiet_bind
    | apply quiet_ret
    | apply quiet_lift
    | apply quiet_get_global
    | apply quiet_set_global
    | apply quiet_perform; reflexivity
    | match goal with |- quiet (if ?c then _ else _) => destruct c end
    | intro ].

Lemma json_headers_io_quiet : quiet (json_headers_io raises).
Proof. unfold json_headers_io. quiet_steps. Qed.

(** The cleanup operation is called at most once, with the argument of
    the block, whatever raises afterwards. *)
Lemma cleanup_block_io_calls (rh : pyval) (w : world) (s : pyval) :
  cleanup_calls (snd (cleanup_block_io raises rh w s)) =
  match import_cleanup_api w with
  | Some _ => []
  | None => [run_until_complete rh]
  end.
Proof.
  unfold cleanup_block_io.
  rewrite calls_try_quiet;
    [|intros err; cbv zeta; quiet_steps; apply json_headers_io_quiet].
  rewrite calls_bind. unfold lift at 1 2.
  destruct (import_cleanup_api w) as [err|]; [reflexivity|].
  cbn [snd app cleanup_calls filter]. rewrite calls_bind.
  cbn [emit snd cleanup_calls filter is_cleanup_call app].
  f_equal.
  match goal with
  | |- cleanup_calls (snd (?m s)) = [] =>
      assert (Hq : quiet m); [|apply Hq]
  end.
  quiet_steps; apply json_headers_io_quiet.
Qed.

Ltac agree_steps H :=
  cbv zeta;
  repeat first
    [ apply agree_refl
    | apply agree_bind
    | apply agree_try
    | (intros s; unfold perform, emit; rewrite H; reflexivity)
    | match goal with |- agree (if ?c then _ else _) _ => destruct c end
    | intro ].

(** With nothing that raises, [handle_io] is [handle] by computation. *)
Lemma handle_io_none (req : request) (w : world) :
  handle_io py_int json_loads e (fun _ => None) req w
  = handle py_int json_loads e req w.
Proof. reflexivity. Qed.

(** When nothing raises, the handler is the one of the first part. *)
Lemma handle_io_agree (req : request) (w : world) :
  (forall f, raises f = None) ->
  agree (handle_io py_int json_loads e raises req w)
        (handle py_int json_loads e req w).
Proof.
  intros Hok. unfold handle_io, handle.
  destruct (String.eqb (command req) "GET").
  { unfold do_GET_io, do_GET, json_headers_io, json_headers.
    destruct (String.eqb (path req) "/api/cleanup/status");
      [|destruct (existsb _ _)]; agree_steps Hok. }
  destruct (String.eqb (command req) "POST").
  { unfold do_POST_io, do_POST, cleanup_block_io, cleanup_block,
      json_headers_io, json_headers.
    destruct (String.eqb (path req) "/api/cleanup"); agree_steps Hok. }
  destruct (String.eqb (command req) "HEAD").
  { unfold do_HEAD_io, do_HEAD. agree_steps Hok. }
  agree_steps Hok.
Qed.

Lemma do_POST_io_agree (req : request) (w : world) :
  (forall f, raises f = None) ->
  agree (do_POST_io py_int json_loads raises req w)
        (do_POST py_int json_loads req w).
Proof.
  intros Hok.
  unfold do_POST_io, do_POST, cleanup_block_io, cleanup_block,
    json_headers_io, json_headers.
  destruct (String.eqb (path req) "/api/cleanup"); agree_steps Hok.
Qed.

(** C10, as amended: when the body parses to a [dict] that has
    [retention_hours] and the line of line 173 is printed, the value [v]
    found there, whatever it is, is the one the cleanup operation is
    called with, once, and nothing validates it or replaces it by 24;
    this holds whatever raises later in the request.  When nothing raises
    at all, the request is that log line followed by the cleanup block on
    [v]. *)
Theorem retention_hours_forwarded_once_logged
        (req : request) (w : world) (st : pyval)
        (body : string) (items : list (string * pyval)) (v : pyval) :
  path req = "/api/cleanup" ->
  received_body py_int req = inr body ->
  json_loads body = Some (PDict items) ->
  dict_get items "retention_hours" = Some v ->
  raises (print (LogReceived v)) = None ->
  (exists r st' out,
     do_POST_io py_int json_loads raises req w st = (r, st', out)
     /\ In (print (LogReceived v)) out
     /\ cleanup_calls out =
        match import_cleanup_api w with
        | Some _ => []
        | None => [run_until_complete v]
        end)
  /\ ((forall f, raises f = None) ->
      do_POST_io py_int json_loads raises req w st =
      (emit (print (LogReceived v)) ;; cleanup_block v w) st).
Proof.
  intros Hpath Hbody Hloads Hget Hprint.
  assert (Hrh : parse_retention_hours json_loads body = v).
  { unfold parse_retention_hours. rewrite Hloads. cbn. now rewrite Hget. }
  split.
  - destruct (do_POST_io py_int json_loads raises req w st) as [[r st'] out] eqn:Hpost.
    exists r, st', out. split; [reflexivity|].
    assert (Hcalls : cleanup_calls (snd (do_POST_io py_int json_loads raises req w st))
                     = match import_cleanup_api w with
                       | Some _ => []
                       | None => [run_until_complete v]
                       end).
    { unfold do_POST_io. rewrite Hpath, String.eqb_refl.
      rewrite calls_try_quiet;
        [|intros err; cbv zeta; quiet_steps; apply json_headers_io_quiet].
      rewrite calls_bind, read_body_eq, Hbody. cbn [snd cleanup_calls filter app].
      rewrite Hrh, calls_bind. unfold perform at 1 2. rewrite Hprint.
      cbn [snd cleanup_calls filter is_cleanup_call app].
      apply cleanup_block_io_calls. }
    rewrite Hpost in Hcalls. cbn [snd] in Hcalls. split; [|exact Hcalls].
    replace out with (snd (do_POST_io py_int json_loads raises req w st))
      by (now rewrite Hpost).
    unfold do_POST_io. rewrite Hpath, String.eqb_refl.
    rewrite out_try. apply in_or_app. left.
    rewrite out_bind, read_body_eq, Hbody. cbn [snd app].
    rewrite Hrh, out_bind. unfold perform at 1. rewrite Hprint.
    cbn. auto.
  - intros Hok. rewrite (do_POST_io_agree req w Hok st).
    rewrite (do_POST_body_read py_int json_loads req w st body Hpath Hbody).
    now rewrite Hrh.
Qed.

(** X9: when no [print], no [json.dumps] and no write to the socket
    raises, every request is answered with exactly one status line and
    the handler returns: the code is 200, 404 or 500 from the handler, or
    the 501 of the base class for a method the class has no [do_] method
    for. *)
Theorem one_status_line_when_writes_succeed
        (req : request) (w : world) (st : pyval) :
  (forall f, raises f = None) ->
  exists code st' out,
    handle_io py_int json_loads e raises req w st = (inr tt, st', out)
    /\ status_lines out = [code]
    /\ In code [200; 404; 500; 501].
Proof.
  intros Hok. rewrite (handle_io_agree req w Hok st).
  apply handle_one_status_line.
Qed.

(** X13: when no [print], no [json.dumps] and no write to the socket
    raises, then whatever the cleanup operation does, the body [POST
    /api/cleanup] answers with (once its own body is read) is the value
    it leaves in [last_cleanup_result]; that value is a [dict], the code
    is 200 or 500, and the next [GET /api/cleanup/status] sends the same
    body again. *)
Theorem post_reply_is_stored_when_writes_succeed
        (req : request) (w : world) (st : pyval) (body : string) :
  (forall f, raises f = None) ->
  path req = "/api/cleanup" ->
  received_body py_int req = inr body ->
  exists code st' out,
    do_POST_io py_int json_loads raises req w st = (inr tt, st', out)
    /\ wire out = json_reply code (Some 2%nat) st'
    /\ (code = 200 \/ code = 500)
    /\ is_dict st' = true
    /\ forall req' w',
         command req' = "GET" ->
         path req' = "/api/cleanup/status" ->
         handle_io py_int json_loads e raises req' w' st'
         = (inr tt, st', json_reply 200 (Some 2%nat) st').
Proof.
  intros Hok Hpath Hbody. rewrite (do_POST_io_agree req w Hok st).
  destruct (do_POST_reply_stored py_int json_loads e req w st body Hpath Hbody)
    as (code & st' & out & Hpost & Hwire & Hcode & Hdict & Hget).
  exists code, st', out. repeat split; auto.
  intros req' w' Hcmd' Hpath'. rewrite (handle_io_agree req' w' Hok st').
  now apply Hget.
Qed.

(** X25: when the result is stored and its status line and headers are
    sent, but writing its body raises (line 202) and the other writes of
    the request go through, the handler of lines 206-222 answers again on
    the same connection: the client gets a second status line, 500, and
    the error result as the only body, and the error result replaces the
    result in [last_cleanup_result]. *)
Theorem unwritable_result_gets_second_status_line
        (req : request) (w : world) (st : pyval)
        (body : string) (items : list (string * pyval)) (err : exn) :
  path req = "/api/cleanup" ->
  received_body py_int req = inr body ->
  import_cleanup_api w = None ->
  run_cleanup_operation w (parse_retention_hours json_loads body)
    = inr (PDict items) ->
  raises (print (LogReceived (parse_retention_hours json_loads body))) = None ->
  raises (send_response 200) = None ->
  raises (send_response 500) = None ->
  raises (send_header "Content-type" "application/json") = None ->
  raises end_headers = None ->
  raises (wfile_write (Some 2%nat) (PDict items)) = Some err ->
  raises (print (LogCleanupFailed err)) = None ->
  raises print_exc = None ->
  raises (wfile_write (Some 2%nat) (error_response err (utcnow_isoformat w)))
    = None ->
  exists code out,
    do_POST_io py_int json_loads raises req w st
    = (inr tt, error_response err (utcnow_isoformat w), out)
    /\ wire out =
       [send_response code;
        send_header "Content-type" "application/json";
        end_headers;
        send_response 500;
        send_header "Content-type" "application/json";
        end_headers;
        wfile_write (Some 2%nat) (error_response err (utcnow_isoformat w))]
    /\ status_lines out = [code; 500]
    /\ (code = 200 \/ code = 500).
Proof.
  intros Hpath Hbody Himp Hrun Hrecv H200 H500 Hhdr Hend Hfail Hlog Hexc Hbody2.
  unfold do_POST_io. rewrite Hpath, String.eqb_refl.
  unfold cleanup_block_io, json_headers_io, try_except, bind, perform, lift,
    emit, set_global.
  rewrite read_body_eq, Hbody, Hrecv, Himp, Hrun. cbn [py_get].
  destruct (py_eq_str
              match dict_get items "status" with
              | Some x => x
              | None => PNone
              end "success");
    [exists 200; rewrite H200 | exists 500; rewrite H500];
    rewrite Hhdr, Hend, Hfail; cbn;
    rewrite Hlog, Hexc, ?H500, Hbody2; cbn;
    (eexists; split; [reflexivity|]; repeat split; auto).
Qed.

End HandlerIOFacts.

Lemma unprintable_retention_is_not_forwarded :
  surrogate_json_loads body_surrogate
  = Some (PDict [("retention_hours", PStr lone_surrogate)])
  /\ import_cleanup_api sample_world = None
  /\ exists out,
       do_POST_io sample_int surrogate_json_loads strict_stdout
         (post_cleanup (Some "29") body_surrogate) sample_world
         initial_cleanup_result
       = (inr tt, initial_cleanup_result, out)
       /\ cleanup_calls out = []
       /\ wire out = json_reply 500 None
                       (post_error surrogate_error "2025-01-01T09:00:00").
Proof.
  split; [reflexivity|]. split; [reflexivity|].
  eexists. split; [reflexivity|]. split; reflexivity.
Qed.

Lemma retention_hours_forwarded_once_logged_witness :
  exists r st' out,
    do_POST_io sample_int surrogate_json_loads strict_stdout
      (post_cleanup (Some "23") body_neg5) sample_world initial_cleanup_result
    = (r, st', out)
    /\ In (print (LogReceived (PInt (-5)))) out
    /\ cleanup_calls out = [run_until_complete (PInt (-5))].
Proof.
  exact (proj1
           (retention_hours_forwarded_once_logged sample_int surrogate_json_loads
              strict_stdout (post_cleanup (Some "23") body_neg5) sample_world
              initial_cleanup_result body_neg5
              [("retention_hours", PInt (-5))] (PInt (-5))
              eq_refl eq_refl eq_refl eq_refl eq_refl)).
Defined.

Lemma one_status_line_when_writes_succeed_witness :
  exists code st' out,
    handle_io sample_int sample_json_loads import_error (fun _ => None)
      (post_cleanup (Some "23") body_48) sample_world initial_cleanup_result
    = (inr tt, st', out)
    /\ status_lines out = [code]
    /\ In code [200; 404; 500; 501].
Proof.
  exact (one_status_line_when_writes_succeed sample_int sample_json_loads
           import_error (fun _ => None)
           (post_cleanup (Some "23") body_48) sample_world initial_cleanup_result
           (fun _ => eq_refl)).
Defined.

Lemma post_reply_is_stored_when_writes_succeed_witness :
  exists code st' out,
    do_POST_io sample_int sample_json_loads (fun _ => None)
      (post_cleanup (Some "8") "not json") sample_world initial_cleanup_result
    = (inr tt, st', out)
    /\ wire out = json_reply code (Some 2%nat) st'
    /\ (code = 200 \/ code = 500)
    /\ is_dict st' = true.
Proof.
  destruct (post_reply_is_stored_when_writes_succeed sample_int sample_json_loads
              import_error (fun _ => None)
              (post_cleanup (Some "8") "not json") sample_world
              initial_cleanup_result "not json" (fun _ => eq_refl) eq_refl eq_refl)
    as (code & st' & out & Hpost & Hwire & Hcode & Hdict & _).
  exists code, st', out. auto.
Defined.

Lemma unwritable_result_gets_second_status_line_witness :
  exists code out,
    do_POST_io sample_int sample_json_loads unwritable_success
      (post_cleanup (Some "23") body_48) sample_world initial_cleanup_result
    = (inr tt,
       error_response (mkExn ValueError "Circular reference detected")
         "2025-01-01T09:00:00",
       out)
    /\ status_lines out = [code; 500]
    /\ (code = 200 \/ code = 500).
Proof.
  destruct (unwritable_result_gets_second_status_line sample_int sample_json_loads
              unwritable_success
              (post_cleanup (Some "23") body_48) sample_world
              initial_cleanup_result body_48
              [("status", PStr "success"); ("timestamp", PStr "T");
               ("retention_hours_applied", PInt 48)]
              (mkExn ValueError "Circular reference detected")
              eq_refl eq_refl eq_refl eq_refl eq_refl eq_refl eq_refl eq_refl
              eq_refl eq_refl eq_refl eq_refl eq_refl)
    as (code & out & Hpost & _ & Hlines & Hcode).
  exists code, out. auto.
Defined.
